(** * Timesheet aggregator: hour calculation, week navigation, persistence

    A shallow embedding of the calculator component (the client page of
    the time sheet tool) and the properties its specification states.

    Conventions of the embedding.
    - A JavaScript number is [NaN] or an exact rational ([Qc], so that
      equal numbers are equal terms).  Rounding of binary floating point
      is not represented: arithmetic is exact.  The numbers of [num] are
      all finite; the day total is modelled a second time in [Wide],
      with the two infinities and overflow, for what depends on them.
    - Dates have a fixed offset of local time in [DateOps]; [Zoned] has
      them with a changing offset and the bounds of the time value.
    - [parseInt] returns an integer or NaN; it is modelled with
      [option Z], [None] standing for NaN.
    - Strings are [string]s of 8-bit characters; of the white space
      that [parseInt] skips only the ASCII part exists here.
    - A property that may be [undefined] on a runtime object is an
      [option] field, [None] standing for [undefined]. *)

From stdpp Require Import base option list numbers strings pretty gmap.
From Stdlib Require Import Ascii String ZArith QArith Qcanon Lia.

Set Warnings "-register-all".
Local Open Scope Z_scope.

(** ** Numbers *)

Module Num.

Inductive num : Type :=
  | NaN
  | Num (q : Qc).

#[export] Instance num_eq_dec : EqDecision num.
Proof. solve_decision. Defined.

Definition zero : num := Num 0%Qc.

Definition isNaN (n : num) : bool :=
  match n with NaN => true | Num _ => false end.

(** [Number.isFinite(n)]: a number of this model is NaN or finite *)
Definition isFinite (n : num) : bool := negb (isNaN n).

(** [a + b] on numbers *)
Definition add (a b : num) : num :=
  match a, b with
  | Num x, Num y => Num (x + y)%Qc
  | _, _ => NaN
  end.

Definition of_Z (z : Z) : Qc := Q2Qc (inject_Z z).

(** [z / 60] for an integer [z] *)
Definition div60 (z : Z) : Qc := (of_Z z / of_Z 60)%Qc.

(** [0 <= n], false on NaN as every comparison with NaN is *)
Definition nonneg (n : num) : Prop :=
  match n with NaN => False | Num q => (0 <= q)%Qc end.

End Num.
Export Num.

(** ** Strings: [split] and [parseInt] *)

Module Str.

Definition colon : ascii := ":"%char.

(** [s.split(sep)] for a one-character separator: always at least one
    part, the parts between the separators in order. *)
Fixpoint split (sep : ascii) (s : string) : list string :=
  match s with
  | EmptyString => [EmptyString]
  | String c s' =>
      if Ascii.eqb c sep then EmptyString :: split sep s'
      else match split sep s' with
           | [] => [String c EmptyString]
           | p :: ps => String c p :: ps
           end
  end.

Definition is_space (c : ascii) : bool :=
  let n := nat_of_ascii c in
  (Nat.eqb n 9 || Nat.eqb n 10 || Nat.eqb n 11 || Nat.eqb n 12
   || Nat.eqb n 13 || Nat.eqb n 32)%bool.

Definition digit_val (c : ascii) : option Z :=
  let n := nat_of_ascii c in
  if (Nat.leb 48 n && Nat.leb n 57)%bool then Some (Z.of_nat n - 48) else None.

Definition is_digit (c : ascii) : bool :=
  match digit_val c with Some _ => true | None => false end.

Fixpoint skip_space (s : string) : string :=
  match s with
  | String c s' => if is_space c then skip_space s' else s
  | EmptyString => s
  end.

(** The longest run of decimal digits at the front of [s], read as a
    number continuing [acc]; [seen] tells whether a digit was read. *)
Fixpoint digits (s : string) (acc : Z) (seen : bool) : option Z :=
  match s with
  | String c s' =>
      match digit_val c with
      | Some d => digits s' (10 * acc + d) true
      | None => if seen then Some acc else None
      end
  | EmptyString => if seen then Some acc else None
  end.

(** [parseInt(s, 10)]: white space is skipped, one sign is read, then
    the longest run of digits; whatever follows is ignored.  No digit at
    that place gives NaN.  With the radix given as 10 no [0x] is
    recognised. *)
Definition parseInt (s : string) : option Z :=
  match skip_space s with
  | String "-" r => Z.opp <$> digits r 0 false
  | String "+" r => digits r 0 false
  | r => digits r 0 false
  end.

End Str.
Export Str.

(** ** Data model *)

Record TimeEntry : Type := mkEntry {
  startTime : option string;
  endTime : option string;
  hours : option num
}.

(** [{ startTime: "", endTime: "", hours: 0 }] *)
Definition blankEntry : TimeEntry := mkEntry (Some ""%string) (Some ""%string) (Some zero).

(** [!s] for a string-valued property: missing or empty *)
Definition falsy_str (s : option string) : bool :=
  match s with
  | None => true
  | Some EmptyString => true
  | Some _ => false
  end.

(** ** calculateDayHours *)

(** the callback of the first [reduce] (direct hours) *)
Definition directStep (total : num) (entry : TimeEntry) : num :=
  let h := default zero (hours entry) in
  add total (if isNaN h then zero else h).

(** the callback of the second [reduce] (time ranges) *)
Definition rangeStep (total : num) (entry : TimeEntry) : num :=
  if (falsy_str (startTime entry) || falsy_str (endTime entry))%bool then total
  else
    let startParts := split colon (default ""%string (startTime entry)) in
    let endParts := split colon (default ""%string (endTime entry)) in
    if negb (Nat.eqb (List.length startParts) 2 && Nat.eqb (List.length endParts) 2)%bool
    then total
    else
      match parseInt (List.nth 0 startParts ""%string),
            parseInt (List.nth 1 startParts ""%string),
            parseInt (List.nth 0 endParts ""%string),
            parseInt (List.nth 1 endParts ""%string) with
      | Some startHour, Some startMin, Some endHour, Some endMin =>
          let startMinutes := startHour * 60 + startMin in
          let endMinutes := endHour * 60 + endMin in
          if endMinutes <? startMinutes then total
          else add total (Num (div60 (endMinutes - startMinutes)))
      | _, _, _, _ => total
      end.

Definition calculateDayHours (entries : list TimeEntry) (useDirectHours : bool) : num :=
  if useDirectHours then fold_left directStep entries zero
  else fold_left rangeStep entries zero.

(** a day's hours are acceptable to the direct-hours sum when the field
    is missing, NaN, or not negative *)
Definition hoursNonneg (e : TimeEntry) : Prop :=
  match hours e with
  | Some (Num q) => (0 <= q)%Qc
  | _ => True
  end.

(** ** The contribution of one entry, as the specification words it *)

Module Contribution.

(** The minutes since midnight that the code reads from a time string:
    the string is present and not empty, [split] gives exactly two
    parts, and [parseInt] reads a number from each. *)
Definition minutesOf (s : option string) : option Z :=
  if falsy_str s then None
  else match split colon (default ""%string s) with
       | [h; m] =>
           match parseInt h, parseInt m with
           | Some hh, Some mm => Some (hh * 60 + mm)
           | _, _ => None
           end
       | _ => None
       end.

(** What an entry adds to the day in time-range mode. *)
Definition contribution (e : TimeEntry) : Qc :=
  match minutesOf (startTime e), minutesOf (endTime e) with
  | Some startMinutes, Some endMinutes =>
      if endMinutes <? startMinutes then 0%Qc
      else div60 (endMinutes - startMinutes)
  | _, _ => 0%Qc
  end.

Definition total (l : list Qc) : Qc := foldr Qcplus 0%Qc l.

(** The strict reading of "numeric part": one or more characters, all
    of them decimal digits. *)
Definition numericPart (p : string) : bool :=
  match p with
  | EmptyString => false
  | _ => forallb is_digit (list_ascii_of_string p)
  end.

(** The value of a digit string by position. *)
Fixpoint decimal (p : string) : Z :=
  match p with
  | EmptyString => 0
  | String c r => default 0 (digit_val c) * 10 ^ Z.of_nat (String.length r) + decimal r
  end.

Definition strictMinutes (s : option string) : option Z :=
  match s with
  | None => None
  | Some t =>
      match split colon t with
      | [h; m] =>
          if (numericPart h && numericPart m)%bool
          then Some (decimal h * 60 + decimal m) else None
      | _ => None
      end
  end.

Definition strictContribution (e : TimeEntry) : Qc :=
  match strictMinutes (startTime e), strictMinutes (endTime e) with
  | Some startMinutes, Some endMinutes =>
      if endMinutes <? startMinutes then 0%Qc
      else div60 (endMinutes - startMinutes)
  | _, _ => 0%Qc
  end.

End Contribution.
Export Contribution.

(** ** The host: time zone, calendar, and the library functions on text

    What the browser supplies and the component only calls.  A date
    object holds a time value, the milliseconds since the epoch in UTC,
    or is the Invalid Date.  Local time is UTC shifted by a fixed offset
    (no daylight-saving change falls in the weeks considered). *)

Inductive Date : Type :=
  | InvalidDate
  | TimeValue (t : Z).

(** A runtime value: what [JSON.parse] returns, and the objects the
    component builds from it.  An object is the list of its own
    properties in insertion order; [VNative] is a built-in function,
    such as the [entries] method that every array has. *)
Inductive value : Type :=
  | VUndef
  | VNull
  | VBool (b : bool)
  | VNum (n : num)
  | VStr (s : string)
  | VDate (d : Date)
  | VNative
  | VArr (items : list value)
  | VObj (props : list (string * value)).

Class Host : Type := {
  (** local time minus UTC, in milliseconds *)
  tzOffset : Z;
  (** the day number (days since the epoch) of the first day of the
      month that holds the given day *)
  firstOfMonth : Z -> Z;
  (** [Date.prototype.toISOString] on a time value *)
  toISOString : Z -> string;
  (** [new Date(s)] for a string *)
  parseDate : string -> Date;
  (** [parseFloat(s)] for a string *)
  parseFloatStr : string -> num;
  (** the string an array, a date or another object converts to *)
  objToString : value -> string;
  (** [new Date()] read by the handler that runs *)
  now : Z
}.

Module DateOps.
Section WithHost.
Context {host : Host}.

Definition msPerDay : Z := 86400000.

(** the local calendar day of a time value, counted from the epoch *)
Definition localDay (t : Z) : Z := (t + tzOffset) / msPerDay.

(** the local time within the day, in milliseconds *)
Definition localTime (t : Z) : Z := (t + tzOffset) mod msPerDay.

Definition ofLocal (day ms : Z) : Z := day * msPerDay + ms - tzOffset.

(** [getDay()]: 0 is Sunday; the epoch day was a Thursday *)
Definition getDay (t : Z) : Z := (localDay t + 4) mod 7.

(** [getDate()]: the day of the month, from 1 *)
Definition getDate (t : Z) : Z := localDay t - firstOfMonth (localDay t) + 1.

(** [setDate(n)]: day [n] of the current month, counting on into the
    neighbouring months when [n] is out of the month; the time of day
    stays. *)
Definition setDate (t : Z) (n : Z) : Z :=
  ofLocal (firstOfMonth (localDay t) + n - 1) (localTime t).

(** [setHours(0, 0, 0, 0)] *)
Definition setMidnight (t : Z) : Z := ofLocal (localDay t) 0.

Definition getMonday (d : Date) : Date :=
  match d with
  | InvalidDate => InvalidDate
  | TimeValue date =>
      let dayOfWeek := getDay date in
      let diff := getDate date - dayOfWeek + (if dayOfWeek =? 0 then -6 else 1) in
      let date := setDate date diff in
      let date := setMidnight date in
      TimeValue date
  end.

(** [const date = new Date(monday); date.setDate(monday.getDate() + i)] *)
Definition dayOfWeekFrom (monday : Date) (i : Z) : Date :=
  match monday with
  | InvalidDate => InvalidDate
  | TimeValue m => TimeValue (setDate m (getDate m + i))
  end.

End WithHost.
End DateOps.
Export DateOps.

(** the local day on which the week of day [d] starts *)
Definition mondayOf (d : Z) : Z :=
  d - (d + 4) mod 7 + (if (d + 4) mod 7 =? 0 then -6 else 1).

(** ** Days and the updates of a week *)

Record DayEntry : Type := mkDay {
  date : Date;
  entries : list TimeEntry;
  totalHours : num;
  useDirectHours : bool
}.

(** [arr.map((x, i) => ...)] with the index *)
Definition mapi {A B : Type} (f : A -> nat -> B) (l : list A) : list B :=
  imap (fun i x => f x i) l.

(** [arr.filter((x, i) => ...)] with the index *)
Fixpoint filteri_from {A : Type} (p : A -> nat -> bool) (i : nat) (l : list A) : list A :=
  match l with
  | [] => []
  | x :: r => if p x i then x :: filteri_from p (S i) r else filteri_from p (S i) r
  end.

Definition filteri {A : Type} (p : A -> nat -> bool) (l : list A) : list A :=
  filteri_from p 0 l.

Inductive Field : Type := FStartTime | FEndTime | FHours.

(** [x || 0] on a number: 0 and NaN are falsy *)
Definition orZero (n : num) : num :=
  match n with
  | NaN => zero
  | Num q => if decide (q = 0%Qc) then zero else n
  end.

Section Updates.
Context {host : Host}.

Definition editEntry (field : Field) (value : string) (entry : TimeEntry) : TimeEntry :=
  match field with
  | FHours => mkEntry (startTime entry) (endTime entry) (Some (orZero (parseFloatStr value)))
  | FStartTime => mkEntry (Some value) (endTime entry) (hours entry)
  | FEndTime => mkEntry (startTime entry) (Some value) (hours entry)
  end.

Definition handleTimeChange (dayIndex entryIndex : nat) (field : Field) (value : string)
    (prevWeekData : list DayEntry) : list DayEntry :=
  mapi (fun day dIndex =>
    if Nat.eqb dIndex dayIndex then
      let updatedEntries :=
        mapi (fun entry eIndex =>
          if Nat.eqb eIndex entryIndex then editEntry field value entry else entry)
          (entries day) in
      mkDay (date day) updatedEntries
            (calculateDayHours updatedEntries (useDirectHours day))
            (useDirectHours day)
    else day) prevWeekData.

End Updates.

Definition toggleDay (day : DayEntry) : DayEntry :=
  let newUseDirectHours := negb (useDirectHours day) in
  mkDay (date day) (entries day)
        (calculateDayHours (entries day) newUseDirectHours)
        newUseDirectHours.

Definition toggleInputMode (dayIndex : nat) (prevWeekData : list DayEntry) : list DayEntry :=
  mapi (fun day dIndex =>
    if Nat.eqb dIndex dayIndex then toggleDay day else day) prevWeekData.

Definition addTimeEntry (dayIndex : nat) (prevWeekData : list DayEntry) : list DayEntry :=
  mapi (fun day dIndex =>
    if Nat.eqb dIndex dayIndex then
      mkDay (date day) (entries day ++ [blankEntry]) (totalHours day) (useDirectHours day)
    else day) prevWeekData.

Definition deleteTimeEntry (dayIndex entryIndex : nat) (prevWeekData : list DayEntry)
    : list DayEntry :=
  mapi (fun day dIndex =>
    if Nat.eqb dIndex dayIndex then
      let updatedEntries :=
        filteri (fun _ eIndex => negb (Nat.eqb eIndex entryIndex)) (entries day) in
      mkDay (date day) updatedEntries
            (calculateDayHours updatedEntries (useDirectHours day))
            (useDirectHours day)
    else day) prevWeekData.

(** the relation every update is meant to keep: the stored total is the
    total of the entries under the day's mode *)
Definition inSync (day : DayEntry) : Prop :=
  totalHours day = calculateDayHours (entries day) (useDirectHours day).

(** ** Runtime values, exceptions and JSON *)

Module Js.

Inductive Exn : Type :=
  | TypeError
  | SyntaxError
  | RangeError
  | Error (msg : string).

(** a computation that returns or throws *)
Definition M (A : Type) : Type := Exn + A.

Definition ret {A : Type} (a : A) : M A := inr a.
Definition throw {A : Type} (e : Exn) : M A := inl e.

Definition bind {A B : Type} (m : M A) (k : A -> M B) : M B :=
  match m with
  | inl e => inl e
  | inr a => k a
  end.

Notation "'do' x <- m ; k" := (bind m (fun x => k))
  (at level 10, x name, m at level 100, k at level 200).

(** the callbacks of [arr.map] run from left to right; the first one
    that throws ends the loop *)
Fixpoint mapM {A B : Type} (f : A -> M B) (l : list A) : M (list B) :=
  match l with
  | [] => ret []
  | x :: r => do y <- f x; do ys <- mapM f r; ret (y :: ys)
  end.

Definition nullish (v : value) : bool :=
  match v with
  | VUndef | VNull => true
  | _ => false
  end.

(** [a ?? b] *)
Definition coalesce (a b : value) : value := if nullish a then b else a.

Definition truthy (v : value) : bool :=
  match v with
  | VUndef | VNull => false
  | VBool b => b
  | VNum NaN => false
  | VNum (Num q) => if decide (q = 0%Qc) then false else true
  | VStr s => negb (String.eqb s ""%string)
  | VDate _ | VNative | VArr _ | VObj _ => true
  end.

Definition isArray (v : value) : bool :=
  match v with
  | VArr _ => true
  | _ => false
  end.

Fixpoint lookupProp (k : string) (props : list (string * value)) : value :=
  match props with
  | [] => VUndef
  | (k', v) :: r => if String.eqb k' k then v else lookupProp k r
  end.

(** [v.k] for one of the property names the component reads.  Reading
    a property of [null] or [undefined] throws.  Of the names read,
    only [entries] exists on a prototype: it is a method of arrays. *)
Definition get (v : value) (k : string) : M value :=
  match v with
  | VUndef | VNull => throw TypeError
  | VObj props => ret (lookupProp k props)
  | VArr _ => ret (if String.eqb k "entries"%string then VNative else VUndef)
  | VBool _ | VNum _ | VStr _ | VDate _ | VNative => ret VUndef
  end.

(** [v.map(f)]: only an array has the method *)
Definition arrayMap (v : value) (f : value -> M value) : M (list value) :=
  match v with
  | VArr items => mapM f items
  | _ => throw TypeError
  end.

(** [{ ...props, k: v }]: an own property keeps its place, a new one
    goes to the end *)
Fixpoint setProp (k : string) (v : value) (props : list (string * value))
    : list (string * value) :=
  match props with
  | [] => [(k, v)]
  | (k', v') :: r =>
      if String.eqb k' k then (k, v) :: r else (k', v') :: setProp k v r
  end.

Definition charsOf (s : string) : list value :=
  map (fun c => VStr (String c EmptyString)) (list_ascii_of_string s).

Definition indexed (l : list value) : list (string * value) :=
  imap (fun i x => (pretty i, x)) l.

(** [{ ...v }]: the own enumerable properties of [v] *)
Definition spread (v : value) : list (string * value) :=
  match v with
  | VObj props => props
  | VArr items => indexed items
  | VStr s => indexed (charsOf s)
  | VUndef | VNull | VBool _ | VNum _ | VDate _ | VNative => []
  end.

(** Whether an array or object can be turned into a primitive, as
    [new Date(v)] and [parseFloat(v)] do first.  An object made by
    [JSON.parse] holds no function, so an own [toString] property hides
    the inherited method and the conversion throws; without one the
    inherited method answers.  An array is joined, which converts each
    of its elements in turn. *)
Fixpoint convertible (v : value) : bool :=
  match v with
  | VObj props => negb (existsb (fun kv => String.eqb (fst kv) "toString") props)
  | VArr items => forallb convertible items
  | VUndef | VNull | VBool _ | VNum _ | VStr _ | VDate _ | VNative => true
  end.

(** [Math.trunc] of a rational *)
Definition truncQc (q : Qc) : Z := Z.quot (Qnum (this q)) (Zpos (Qden (this q))).

Definition maxTime : Z := 8640000000000000.

Section WithHost.
Context {host : Host}.

(** [new Date(v)]: an array or object is first turned into a
    primitive, which can throw *)
Definition newDate (v : value) : M Date :=
  match v with
  | VUndef => ret InvalidDate
  | VNull => ret (TimeValue 0)
  | VBool b => ret (TimeValue (if b then 1 else 0))
  | VNum NaN => ret InvalidDate
  | VNum (Num q) =>
      let t := truncQc q in
      ret (if Z.abs t <=? maxTime then TimeValue t else InvalidDate)
  | VStr s => ret (parseDate s)
  | VDate d => ret d
  | VNative => ret (parseDate (objToString v))
  | VArr _ | VObj _ =>
      if convertible v then ret (parseDate (objToString v)) else throw TypeError
  end.

(** [parseFloat(v)]: the argument is first turned into a string,
    which can throw for an array or object *)
Definition parseFloat (v : value) : M num :=
  match v with
  | VNum n => ret n
  | VStr s => ret (parseFloatStr s)
  | VUndef | VNull | VBool _ | VNative => ret NaN
  | VDate _ => ret (parseFloatStr (objToString v))
  | VArr _ | VObj _ =>
      if convertible v then ret (parseFloatStr (objToString v)) else throw TypeError
  end.

(** What [JSON.parse(JSON.stringify(v))] is, when [v] is not left out:
    [undefined] and functions are left out of objects and are [null] in
    arrays, NaN is [null], a date is its ISO string. *)
Fixpoint toJSON (v : value) : option value :=
  match v with
  | VUndef | VNative => None
  | VNull => Some VNull
  | VBool _ | VStr _ => Some v
  | VNum NaN => Some VNull
  | VNum (Num _) => Some v
  | VDate InvalidDate => Some VNull
  | VDate (TimeValue t) => Some (VStr (toISOString t))
  | VArr items => Some (VArr (map (fun x => default VNull (toJSON x)) items))
  | VObj props =>
      Some (VObj ((fix go (ps : list (string * value)) : list (string * value) :=
                     match ps with
                     | [] => []
                     | (k, x) :: r =>
                         match toJSON x with
                         | Some j => (k, j) :: go r
                         | None => go r
                         end
                     end) props))
  end.

End WithHost.

(** The text of a file or of a storage slot, by what [JSON.parse] makes
    of it: a document, or text that is not JSON. *)
Inductive content : Type :=
  | Raw (s : string)
  | Doc (v : value).

Definition JSON_parse (c : content) : M value :=
  match c with
  | Raw _ => throw SyntaxError
  | Doc v => ret v
  end.

Definition JSON_stringify {host : Host} (v : value) : content :=
  match toJSON v with
  | Some j => Doc j
  | None => Raw "undefined"
  end.

(** [n.toString()] *)
Definition numberText (n : num) : content :=
  match n with
  | NaN => Raw "NaN"
  | Num _ => Doc (VNum n)
  end.

(** [if (text)]: only the empty string is falsy *)
Definition nonEmpty (c : content) : bool :=
  match c with
  | Raw s => negb (String.eqb s ""%string)
  | Doc _ => true
  end.

End Js.
Export Js.

(** ** The component: state, storage, effects and handlers *)

Definition TIMESHEET_PREFIX : string := "timesheet-data-".
Definition WAGE_KEY : string := "timesheet-hourly-wage".

(** the three [useState] cells *)
Record State : Type := mkState {
  selectedMonday : Date;
  weekData : list value;
  hourlyWage : num
}.

(** the state together with [localStorage] and the alerts shown *)
Record World : Type := mkWorld {
  state : State;
  storage : gmap string content;
  alerts : list string
}.

(** The object a typed entry or day is at run time. *)
Definition optProp (k : string) (v : option value) : list (string * value) :=
  match v with
  | Some x => [(k, x)]
  | None => []
  end.

Definition ofEntry (e : TimeEntry) : value :=
  VObj (optProp "startTime" (VStr <$> startTime e)
        ++ optProp "endTime" (VStr <$> endTime e)
        ++ optProp "hours" (VNum <$> hours e)).

Definition ofDay (d : DayEntry) : value :=
  VObj [("date"%string, VDate (date d));
        ("entries"%string, VArr (map ofEntry (entries d)));
        ("totalHours"%string, VNum (totalHours d));
        ("useDirectHours"%string, VBool (useDirectHours d))].

Definition ofWeek (w : list DayEntry) : list value := map ofDay w.

Module App.
Section WithHost.
Context {host : Host}.

Definition getLocalStorageKey (monday : Date) : M string :=
  match monday with
  | InvalidDate => throw RangeError
  | TimeValue t =>
      ret (TIMESHEET_PREFIX +:+ List.nth 0 (split "T"%char (toISOString t)) ""%string)
  end.

(** [Array.from({ length: 7 }, (_, i) => ...)] of [initializeNewWeek] *)
Definition newWeek (monday : Date) : list DayEntry :=
  map (fun i => mkDay (dayOfWeekFrom monday (Z.of_nat i)) [blankEntry] zero false)
      (seq 0 7).

Definition initializeNewWeek (monday : Date) : list value := ofWeek (newWeek monday).

(** the callback that the loading effect maps over the stored days *)
Definition sanitizeDay (day : value) : M value :=
  do d <- get day "date";
  do date <- newDate d;
  do e <- get day "entries";
  do t <- get day "totalHours";
  do total <- parseFloat t;
  do u <- get day "useDirectHours";
  ret (VObj
    (setProp "useDirectHours" (coalesce u (VBool false))
    (setProp "totalHours" (coalesce (VNum total) (VNum zero))
    (setProp "entries"
       (coalesce e (VArr [VObj [("startTime"%string, VStr ""); ("endTime"%string, VStr "")]]))
    (setProp "date" (VDate date)
    (spread day)))))).

(** The effect on [selectedMonday]: the week data it sets. *)
Definition loadWeek (s : State) (store : gmap string content) : M (list value) :=
  do key <- getLocalStorageKey (selectedMonday s);
  match store !! key with
  | Some storedData =>
      if nonEmpty storedData then
        match (do parsed <- JSON_parse storedData; arrayMap parsed sanitizeDay) with
        | inr parsedData => ret parsedData
        | inl _ => ret (initializeNewWeek (selectedMonday s))
        end
      else ret (initializeNewWeek (selectedMonday s))
  | None => ret (initializeNewWeek (selectedMonday s))
  end.

(** The effect on [weekData] and [selectedMonday]: the storage it leaves. *)
Definition saveWeek (s : State) (store : gmap string content) : M (gmap string content) :=
  match weekData s with
  | [] => ret store
  | _ :: _ =>
      do key <- getLocalStorageKey (selectedMonday s);
      ret (<[key := JSON_stringify (VArr (weekData s))]> store)
  end.

(** The effect on [hourlyWage]. *)
Definition saveWage (s : State) (store : gmap string content) : gmap string content :=
  <[WAGE_KEY := numberText (hourlyWage s)]> store.

(** *** Export *)

Definition downloadJSON (s : State) : content :=
  JSON_stringify (VObj [("selectedMonday"%string, VDate (selectedMonday s));
                        ("weekData"%string, VArr (weekData s))]).

(** *** Import *)

Definition importEntry (entry : value) : M value :=
  do s <- get entry "startTime";
  do e <- get entry "endTime";
  do h <- get entry "hours";
  ret (VObj [("startTime"%string, coalesce s (VStr ""));
             ("endTime"%string, coalesce e (VStr ""));
             ("hours"%string, coalesce h (VNum zero))]).

Definition importDay (day : value) : M value :=
  do d <- get day "date";
  do date <- newDate d;
  do e <- get day "entries";
  do es <- arrayMap e importEntry;
  ret (VObj (setProp "entries" (VArr es)
            (setProp "date" (VDate date)
            (spread day)))).

(** the [try] block up to the first state update *)
Definition readImport (c : content) : M (Date * list value) :=
  do data <- JSON_parse c;
  do sm <- get data "selectedMonday";
  do wd <- (if negb (truthy sm) then throw (Error "Invalid timesheet data format")
            else do wd <- get data "weekData";
                 if negb (isArray wd) then throw (Error "Invalid timesheet data format")
                 else ret wd);
  do importedMonday <- newDate sm;
  do importedWeekData <- arrayMap wd importDay;
  ret (importedMonday, importedWeekData).

(** the [try] block: the world it leaves, and the exception if one was
    thrown on the way *)
Definition importTry (c : content) (w : World) : World * option Exn :=
  match readImport c with
  | inl e => (w, Some e)
  | inr (importedMonday, importedWeekData) =>
      let w1 := mkWorld (mkState importedMonday importedWeekData (hourlyWage (state w)))
                        (storage w) (alerts w) in
      match getLocalStorageKey importedMonday with
      | inl e => (w1, Some e)
      | inr key =>
          (mkWorld (state w1)
                   (<[key := JSON_stringify (VArr importedWeekData)]> (storage w1))
                   (alerts w1), None)
      end
  end.

Definition importFailed : string :=
  "Failed to import timesheet. Please make sure the file is a valid timesheet JSON export.".

(** [handleFileSelect] with the file read: no file, or its text *)
Definition handleFileSelect (file : option content) (w : World) : World :=
  match file with
  | None => w
  | Some c =>
      match importTry c w with
      | (w', None) => w'
      | (w', Some _) => mkWorld (state w') (storage w') (importFailed :: alerts w')
      end
  end.

(** *** Clear all *)

(** [allKeys.forEach(key => { if (key.startsWith(PREFIX)) remove(key) })] *)
Definition removeWeeks (store : gmap string content) : gmap string content :=
  foldr (fun key m => if String.prefix TIMESHEET_PREFIX key then delete key m else m)
        store (map fst (map_to_list store)).

Definition emptyWeek (monday : Date) : list DayEntry :=
  map (fun i => mkDay (dayOfWeekFrom monday (Z.of_nat i)) [blankEntry] zero false)
      (seq 0 7).

Definition clearAll (w : World) : World :=
  let store := removeWeeks (storage w) in
  let store := delete WAGE_KEY store in
  let newMonday := getMonday (TimeValue now) in
  let newWeekData := emptyWeek newMonday in
  mkWorld (mkState newMonday (ofWeek newWeekData) zero) store (alerts w).

(** The effects that run once [clearAll] has returned and the component
    has rendered again.  [selectedMonday] is a new object and [weekData]
    a new array, so the loading and the saving effect both run, with the
    values of that render; the wage effect runs when the wage changed.
    The week that the loading effect sets is rendered next, and saved. *)
Definition clearAllSettled (w : World) : M World :=
  let w1 := clearAll w in
  do loaded <- loadWeek (state w1) (storage w1);
  do store <- saveWeek (state w1) (storage w1);
  let store := if decide (hourlyWage (state w) = hourlyWage (state w1)) then store
               else saveWage (state w1) store in
  let s2 := mkState (selectedMonday (state w1)) loaded (hourlyWage (state w1)) in
  do store <- saveWeek s2 store;
  ret (mkWorld s2 store (alerts w1)).

End WithHost.
End App.
Export App.

(** ** A sample host

    A browser in the UTC time zone with the proleptic Gregorian
    calendar, used where a property is run on concrete data.  Its date
    parser reads the two formats [YYYY-MM-DD] and
    [YYYY-MM-DDTHH:MM:SS.mmmZ]; its [parseFloat] reads a sign, digits
    and a fraction. *)

Module Sample.

(** the calendar date [(year, month, day)] of a day number *)
Definition civil (d : Z) : Z * Z * Z :=
  let z := d + 719468 in
  let era := z / 146097 in
  let doe := z - era * 146097 in
  let yoe := (doe - doe / 1460 + doe / 36524 - doe / 146096) / 365 in
  let doy := doe - (365 * yoe + yoe / 4 - yoe / 100) in
  let mp := (5 * doy + 2) / 153 in
  let day := doy - (153 * mp + 2) / 5 + 1 in
  let month := if mp <? 10 then mp + 3 else mp - 9 in
  let year := yoe + era * 400 + (if month <=? 2 then 1 else 0) in
  (year, month, day).

(** the day number of a calendar date *)
Definition dayNumber (year month day : Z) : Z :=
  let y := if month <=? 2 then year - 1 else year in
  let era := y / 400 in
  let yoe := y - era * 400 in
  let doy := (153 * (if 2 <? month then month - 3 else month + 9) + 2) / 5 + day - 1 in
  let doe := yoe * 365 + yoe / 4 - yoe / 100 + doy in
  era * 146097 + doe - 719468.

Definition firstOfMonth (d : Z) : Z :=
  let '(_, _, day) := civil d in d - (day - 1).

Definition pad2 (z : Z) : string :=
  if z <? 10 then "0" +:+ pretty z else pretty z.

Definition pad3 (z : Z) : string :=
  if z <? 10 then "00" +:+ pretty z
  else if z <? 100 then "0" +:+ pretty z else pretty z.

Definition pad4 (z : Z) : string :=
  if z <? 1000 then "0" +:+ pad3 z else pretty z.

Definition toISOString (t : Z) : string :=
  let '(year, month, day) := civil (t / 86400000) in
  let ms := t mod 86400000 in
  pad4 year +:+ "-" +:+ pad2 month +:+ "-" +:+ pad2 day +:+ "T"
  +:+ pad2 (ms / 3600000) +:+ ":" +:+ pad2 (ms / 60000 mod 60) +:+ ":"
  +:+ pad2 (ms / 1000 mod 60) +:+ "." +:+ pad3 (ms mod 1000) +:+ "Z".

(** the number written at [n] characters from position [i], when they
    are all digits *)
Definition field (i n : nat) (s : string) : option Z :=
  let p := String.substring i n s in
  if numericPart p then Some (decimal p) else None.

Definition parseDate (s : string) : Date :=
  let len := String.length s in
  match field 0 4 s, field 5 2 s, field 8 2 s with
  | Some year, Some month, Some day =>
      if negb (String.eqb (String.substring 4 1 s) "-" && String.eqb (String.substring 7 1 s) "-")
      then InvalidDate
      else if Nat.eqb len 10 then TimeValue (dayNumber year month day * 86400000)
      else if Nat.eqb len 24 then
        match field 11 2 s, field 14 2 s, field 17 2 s, field 20 3 s with
        | Some h, Some mi, Some sec, Some ms =>
            if (String.eqb (String.substring 10 1 s) "T"
                && String.eqb (String.substring 13 1 s) ":"
                && String.eqb (String.substring 16 1 s) ":"
                && String.eqb (String.substring 19 1 s) "."
                && String.eqb (String.substring 23 1 s) "Z")%bool
            then TimeValue (dayNumber year month day * 86400000
                            + h * 3600000 + mi * 60000 + sec * 1000 + ms)
            else InvalidDate
        | _, _, _, _ => InvalidDate
        end
      else InvalidDate
  | _, _, _ => InvalidDate
  end.

(** the digits after the point: their value and their number *)
Fixpoint fraction (s : string) (acc : Z) (n : nat) : Z * nat :=
  match s with
  | String c r =>
      match digit_val c with
      | Some d => fraction r (10 * acc + d) (S n)
      | None => (acc, n)
      end
  | EmptyString => (acc, n)
  end.

Fixpoint afterDigits (s : string) : string :=
  match s with
  | String c r => if is_digit c then afterDigits r else s
  | EmptyString => s
  end.

Definition unsignedFloat (s : string) : option Qc :=
  match digits s 0 false with
  | Some whole =>
      match afterDigits s with
      | String "." r =>
          let '(f, n) := fraction r 0 0 in
          Some (of_Z whole + of_Z f / of_Z (10 ^ Z.of_nat n))%Qc
      | _ => Some (of_Z whole)
      end
  | None =>
      match s with
      | String "." r =>
          match fraction r 0 0 with
          | (_, O) => None
          | (f, n) => Some (of_Z f / of_Z (10 ^ Z.of_nat n))%Qc
          end
      | _ => None
      end
  end.

Definition parseFloatStr (s : string) : num :=
  match skip_space s with
  | String "-" r => match unsignedFloat r with Some q => Num (- q)%Qc | None => NaN end
  | String "+" r => match unsignedFloat r with Some q => Num q | None => NaN end
  | r => match unsignedFloat r with Some q => Num q | None => NaN end
  end.

Definition objToString (v : value) : string :=
  match v with
  | VArr [] => ""
  | VArr [VStr s] => s
  | _ => "[object Object]"
  end.

(** Wednesday 5 June 2024, 10:30 *)
Definition now : Z := 19879 * 86400000 + 37800000.

Definition host : Host :=
  Build_Host 0 firstOfMonth toISOString parseDate parseFloatStr objToString now.

(** Monday 3 June 2024, 00:00 *)
Definition monday : Z := 19877 * 86400000.

End Sample.




(** ** The shape of an import document *)

Definition isOk {A : Type} (m : M A) : bool :=
  match m with
  | inr _ => true
  | inl _ => false
  end.

(** the document has a [selectedMonday] that is not falsy, and a
    [weekData] that is an array *)
Definition wellShaped (c : content) : bool :=
  match c with
  | Raw _ => false
  | Doc data =>
      match get data "selectedMonday", get data "weekData" with
      | inr sm, inr wd => (truthy sm && isArray wd)%bool
      | _, _ => false
      end
  end.

Definition entryImportable (entry : value) : bool := negb (nullish entry).

(** an object with a [date] that [new Date] can take and an array of
    entries none of which is [null] *)
Definition dayImportable (day : value) : bool :=
  match day with
  | VObj props =>
      (convertible (lookupProp "date" props)
       && match lookupProp "entries" props with
          | VArr es => forallb entryImportable es
          | _ => false
          end)%bool
  | _ => false
  end.

Definition validDate (d : Date) : bool :=
  match d with
  | InvalidDate => false
  | TimeValue _ => true
  end.

(** what the handler asks of a document to take it over *)
Definition importableDoc {host : Host} (c : content) : bool :=
  match c with
  | Raw _ => false
  | Doc data =>
      match get data "selectedMonday", get data "weekData" with
      | inr sm, inr (VArr days) =>
          (truthy sm && forallb dayImportable days
           && match newDate sm with
              | inr importedMonday => validDate importedMonday
              | inl _ => false
              end)%bool
      | _, _ => false
      end
  end.

(** the world after a refused import: as before, with the alert *)
Definition refused (w : World) : World :=
  mkWorld (state w) (storage w) (importFailed :: alerts w).

(** the named property of an object *)
Definition propOf (k : string) (v : value) : value :=
  match v with
  | VObj props => lookupProp k props
  | _ => VUndef
  end.

Module Cases.

Definition world0 : World :=
  mkWorld (mkState (TimeValue Sample.monday) [] zero) ∅ [].

(** a document with a Monday and no day at all *)
Definition noDays : content :=
  Doc (VObj [("selectedMonday"%string, VStr "2024-06-03T00:00:00.000Z");
             ("weekData"%string, VArr [])]).

(** a document with one day of one entry *)
Definition oneDay : content :=
  Doc (VObj [("selectedMonday"%string, VStr "2024-06-03T00:00:00.000Z");
             ("weekData"%string,
              VArr [VObj [("date"%string, VStr "2024-06-03T00:00:00.000Z");
                          ("entries"%string, VArr [VObj [("startTime"%string, VStr "09:00")]])]])]).

(** a day worked from 09:00 to 17:00 *)
Definition workDay : DayEntry :=
  mkDay (TimeValue Sample.monday)
        [mkEntry (Some "09:00"%string) (Some "17:00"%string) (Some zero)]
        (Num (of_Z 8)) false.

(** a day whose total is NaN, as the loading effect leaves it when the
    stored record has no total *)
Definition nanDay : DayEntry :=
  mkDay (TimeValue Sample.monday) [blankEntry] NaN false.

Definition worldOf (week : list DayEntry) : World :=
  mkWorld (mkState (TimeValue Sample.monday) (ofWeek week) zero) ∅ [].

(** a stored week of one day that has no [entries], no [totalHours]
    and no [useDirectHours] *)
Definition bareDay : content :=
  Doc (VArr [VObj [("date"%string, VStr "2024-06-03T00:00:00.000Z")]]).

(** a stored day whose total is not a number *)
Definition wordTotal : content :=
  Doc (VArr [VObj [("date"%string, VStr "2024-06-03T00:00:00.000Z");
                   ("entries"%string, VArr []);
                   ("totalHours"%string, VStr "abc");
                   ("useDirectHours"%string, VBool true)]]).

(** a document whose [selectedMonday] is no date *)
Definition noDate : content :=
  Doc (VObj [("selectedMonday"%string, VStr "hello");
             ("weekData"%string, VArr [])]).

Definition mondayKey : string := "timesheet-data-2024-06-03".

Definition stateAt : State := mkState (TimeValue Sample.monday) [] zero.

(** a wage of 20, the current week on screen, and an earlier week and
    the wage in the storage *)
Definition busyWorld : World :=
  mkWorld (mkState (TimeValue Sample.monday) (ofWeek [workDay]) (Num (of_Z 20)))
          (<[ "timesheet-data-2024-05-27"%string := Doc (VArr []) ]>
             {[ WAGE_KEY := Doc (VNum (Num (of_Z 20))) ]})
          [].

End Cases.

(** the totals of the days of a week, as stored in the day objects *)
Definition totalsOf (week : list value) : list value :=
  map (propOf "totalHours") week.

(** the world after the current document is exported and that document
    is imported *)
Definition exportImport {host : Host} (w : World) : World :=
  handleFileSelect (Some (downloadJSON (state w))) w.

(** ** The rest of the component: weekly total, wage, date picker *)

(** [weekData.reduce((total, day) => total + day.totalHours, 0)] *)
Definition totalWeekHours (week : list DayEntry) : num :=
  fold_left (fun total day => add total (totalHours day)) week zero.

(** a number that is not NaN and not negative *)
Definition validWage (n : num) : Prop :=
  match n with
  | NaN => False
  | Num q => (0 <= q)%Qc
  end.

(** [!isNaN(wage) && wage >= 0] *)
Definition wageAccepted (n : num) : bool :=
  match n with
  | NaN => false
  | Num q => bool_decide (0 <= q)%Qc
  end.

Module Wage.
Section WithHost.
Context {host : Host}.

(** [parseFloat(text)] for the text of a storage slot: the text of a
    JSON number reads as that number, the text of any other JSON value
    starts with a quote, a bracket, a brace or a letter and reads as
    NaN *)
Definition parseFloatText (c : content) : num :=
  match c with
  | Raw s => parseFloatStr s
  | Doc (VNum n) => n
  | Doc _ => NaN
  end.

(** The effect that runs once, on mount: the wage it leaves. *)
Definition loadWage (wage : num) (store : gmap string content) : num :=
  match store !! WAGE_KEY with
  | Some savedWage => if nonEmpty savedWage then parseFloatText savedWage else wage
  | None => wage
  end.

Definition handleWageChange (value : string) (s : State) : State :=
  let wage := if String.eqb value ""%string then zero else parseFloatStr value in
  if wageAccepted wage
  then mkState (selectedMonday s) (weekData s) wage
  else s.

End WithHost.
End Wage.
Export Wage.

Module Picker.

(** one step of the pattern: a class of characters *)
Definition dash (c : ascii) : bool := Ascii.eqb c "-"%char.

(** [\d{4}-\d{2}-\d{2}] *)
Definition datePattern : list (ascii -> bool) :=
  [is_digit; is_digit; is_digit; is_digit; dash;
   is_digit; is_digit; dash; is_digit; is_digit].

(** the pattern matches at the front of [s] *)
Fixpoint matchAt (pat : list (ascii -> bool)) (s : string) : bool :=
  match pat with
  | [] => true
  | p :: pat' =>
      match s with
      | String c r => (p c && matchAt pat' r)%bool
      | EmptyString => false
      end
  end.

(** [/pat/.test(s)]: the pattern, which is not anchored, matches at some
    position of [s] *)
Fixpoint test (pat : list (ascii -> bool)) (s : string) : bool :=
  (matchAt pat s
   || match s with
      | String _ r => test pat r
      | EmptyString => false
      end)%bool.

(** [Number(s)] for a string, supplied by the host *)
Class NumberHost : Type := {
  toNumber : string -> num
}.

(** [ToIntegerOrInfinity] of a number that is not NaN *)
Definition toInteger (n : num) : option Z :=
  match n with
  | NaN => None
  | Num q => Some (truncQc q)
  end.

Section WithHost.
Context {host : Host} {numbers : NumberHost}.

(** [new Date(year, month, day)]: local midnight of the given day, the
    month counted from 0 and carried into the year, the day counted on
    into the neighbouring months, the years 0 to 99 read as 1900 to
    1999; out of the range of time values the date is invalid *)
Definition newDateLocal (year month day : num) : Date :=
  match toInteger year, toInteger month, toInteger day with
  | Some y, Some m, Some d =>
      let y := if (0 <=? y) && (y <=? 99) then 1900 + y else y in
      let ym := y + m / 12 in
      let mn := m mod 12 in
      let t := ofLocal (Sample.dayNumber ym (mn + 1) d) 0 in
      if Z.abs t <=? maxTime then TimeValue t else InvalidDate
  | _, _, _ => InvalidDate
  end.

(** [x - 1] on numbers *)
Definition pred (n : num) : num := add n (Num (of_Z (-1))).

(** [dateValue.split("-").map(Number)] *)
Definition dateParts (dateValue : string) : list num :=
  map toNumber (split "-"%char dateValue).

Definition handleDateChange (dateValue : string) (s : State) : State :=
  if (String.eqb dateValue ""%string || negb (test datePattern dateValue))%bool
  then s
  else
    let parts := dateParts dateValue in
    match parts !! 0%nat, parts !! 1%nat, parts !! 2%nat with
    | Some year, Some month, Some day =>
        if (isNaN year || isNaN month || isNaN day)%bool then s
        else
          let newSelectedDate := newDateLocal year (pred month) day in
          mkState (getMonday newSelectedDate) (weekData s) (hourlyWage s)
    | _, _, _ => s
    end.

End WithHost.
End Picker.
Export Picker.

(** ** User actions on the week *)

(** the four handlers that change entries, as the buttons and inputs of
    a day call them *)
Inductive Action : Type :=
  | Edit (dayIndex entryIndex : nat) (field : Field) (value : string)
  | Toggle (dayIndex : nat)
  | AddEntry (dayIndex : nat)
  | DeleteEntry (dayIndex entryIndex : nat).

Definition dayIndexOf (a : Action) : nat :=
  match a with
  | Edit i _ _ _ | Toggle i | AddEntry i | DeleteEntry i _ => i
  end.

Definition act {host : Host} (a : Action) (week : list DayEntry) : list DayEntry :=
  match a with
  | Edit i j field value => handleTimeChange i j field value week
  | Toggle i => toggleInputMode i week
  | AddEntry i => addTimeEntry i week
  | DeleteEntry i j => deleteTimeEntry i j week
  end.

(** the actions of a session, in the order they happen *)
Definition run {host : Host} (actions : list Action) (week : list DayEntry) : list DayEntry :=
  fold_left (fun w a => act a w) actions week.

(** the rational a number stands for, with 0 for NaN *)
Definition numVal (n : num) : Qc :=
  match n with
  | NaN => 0%Qc
  | Num q => q
  end.

(** what an entry adds to the day in direct-hours mode *)
Definition directHours (e : TimeEntry) : Qc :=
  match hours e with
  | Some (Num q) => q
  | _ => 0%Qc
  end.

(** every handler maps over the days and rebuilds the day at its index *)
Definition onDay {host : Host} (a : Action) (day : DayEntry) : DayEntry :=
  match a with
  | Edit _ j field value =>
      let updatedEntries :=
        mapi (fun entry eIndex =>
          if Nat.eqb eIndex j then editEntry field value entry else entry) (entries day) in
      mkDay (date day) updatedEntries
            (calculateDayHours updatedEntries (useDirectHours day)) (useDirectHours day)
  | Toggle _ => toggleDay day
  | AddEntry _ =>
      mkDay (date day) (entries day ++ [blankEntry]) (totalHours day) (useDirectHours day)
  | DeleteEntry _ j =>
      let updatedEntries :=
        filteri (fun _ eIndex => negb (Nat.eqb eIndex j)) (entries day) in
      mkDay (date day) updatedEntries
            (calculateDayHours updatedEntries (useDirectHours day)) (useDirectHours day)
  end.

(** ** What an imported day holds *)

(** an entry with a start, an end and hours, none of them [null] or
    [undefined] *)
Definition entryComplete (entry : value) : bool :=
  (negb (nullish (propOf "startTime" entry))
   && negb (nullish (propOf "endTime" entry))
   && negb (nullish (propOf "hours" entry)))%bool.

(** a day whose [date] is a date object and whose [entries] is an array
    of complete entries *)
Definition dayComplete (day : value) : bool :=
  (match propOf "date" day with VDate _ => true | _ => false end
   && match propOf "entries" day with
      | VArr es => forallb entryComplete es
      | _ => false
      end)%bool.

(** how often the character occurs in the string *)
Fixpoint occurrences (c : ascii) (s : string) : nat :=
  match s with
  | EmptyString => 0
  | String x r => (if Ascii.eqb x c then 1 else 0) + occurrences c r
  end.

Module SampleNumbers.

Definition unsigned (s : string) : string :=
  match s with
  | String "-" r => r
  | String "+" r => r
  | _ => s
  end.

(** an optional sign, then digits with an optional fraction, and
    nothing else *)
Definition plain (s : string) : bool :=
  (match Sample.afterDigits (unsigned s) with
   | EmptyString => true
   | String "." f => forallb is_digit (list_ascii_of_string f)
   | _ => false
   end
   && match Sample.unsignedFloat (unsigned s) with
      | Some _ => true
      | None => false
      end)%bool.

(** [Number(s)] of the sample host: the empty string is 0 and a plain
    decimal string is its value; every other string is left as NaN, the
    literals with an exponent, in hexadecimal or around white space
    among them, which this sample does not read *)
Definition toNumber (s : string) : num :=
  if String.eqb s ""%string then zero
  else if plain s then Sample.parseFloatStr s else NaN.

Definition numbers : NumberHost := Build_NumberHost toNumber.

End SampleNumbers.

(** ** What a loaded day holds *)

(** an entry whose hours, when present, are a finite number *)
Definition hoursFinite (e : TimeEntry) : Prop :=
  match hours e with
  | Some h => isFinite h = true
  | None => True
  end.

(** a day with a date object, a number as total, and entries and a mode
    that are neither [null] nor [undefined] *)
Definition daySanitized (day : value) : bool :=
  (match propOf "date" day with VDate _ => true | _ => false end
   && match propOf "totalHours" day with VNum _ => true | _ => false end
   && negb (nullish (propOf "entries" day))
   && negb (nullish (propOf "useDirectHours" day)))%bool.

Module MoreCases.

(** an imported document whose one day has an object as date that
    cannot be turned into a primitive: its own [toString] is no
    function *)
Definition stubbornDate : content :=
  Doc (VObj [("selectedMonday"%string, VStr "2024-06-03T00:00:00.000Z");
             ("weekData"%string,
              VArr [VObj [("date"%string, VObj [("toString"%string, VNum zero)]);
                          ("entries"%string, VArr [])]])]).

End MoreCases.

(** ** Dates in a zone with clock changes, within the range of dates

    The date operations once more, with the two things the operations
    above leave out: the offset of local time may change (daylight
    saving), and a time value beyond 8.64e15 ms either side of the epoch
    is no date ([TimeClip]).  With a constant offset and within the
    range they are the operations above. *)

Module Zoned.

Class Zone : Type := {
  (** local time minus UTC at the UTC time [t] *)
  offsetAt : Z -> Z;
  (** the offset the host takes for the local time [l]; at a local time
      that a clock change skips or repeats the host chooses *)
  offsetOf : Z -> Z
}.

(** a zone whose clocks never change *)
Definition fixedZone (offset : Z) : Zone := Build_Zone (fun _ => offset) (fun _ => offset).

(** [TimeClip] *)
Definition timeClip (t : Z) : Date :=
  if Z.abs t <=? maxTime then TimeValue t else InvalidDate.

Definition day (l : Z) : Z := l / msPerDay.
Definition timeInDay (l : Z) : Z := l mod msPerDay.

Section WithZone.
Context {host : Host} {zone : Zone}.

(** [LocalTime(t)] *)
Definition localTime (t : Z) : Z := t + offsetAt t.

(** [UTC(l)] *)
Definition utc (l : Z) : Z := l - offsetOf l.

(** [getDay()] *)
Definition getDay (t : Z) : Z := (day (localTime t) + 4) mod 7.

(** [getDate()] *)
Definition getDate (t : Z) : Z :=
  day (localTime t) - firstOfMonth (day (localTime t)) + 1.

(** [setDate(n)]: the date it leaves *)
Definition setDate (t : Z) (n : Z) : Date :=
  let l := localTime t in
  timeClip (utc ((firstOfMonth (day l) + n - 1) * msPerDay + timeInDay l)).

(** [setHours(0, 0, 0, 0)]: the date it leaves *)
Definition setMidnight (t : Z) : Date :=
  timeClip (utc (day (localTime t) * msPerDay)).

Definition getMonday (d : Date) : Date :=
  match d with
  | InvalidDate => InvalidDate
  | TimeValue date =>
      let dayOfWeek := getDay date in
      let diff := getDate date - dayOfWeek + (if dayOfWeek =? 0 then -6 else 1) in
      match setDate date diff with
      | InvalidDate => InvalidDate
      | TimeValue date => setMidnight date
      end
  end.

(** [const date = new Date(monday); date.setDate(monday.getDate() + i)] *)
Definition dayOfWeekFrom (monday : Date) (i : Z) : Date :=
  match monday with
  | InvalidDate => InvalidDate
  | TimeValue m => setDate m (getDate m + i)
  end.

(** the local time [l] is one the clocks show once: turned into UTC and
    back it is [l] again *)
Definition regularAt (l : Z) : Prop := localTime (utc l) = l.

(** what it takes for the week of [t] to have a start: the Monday of
    the week, at the clock time of [t] and at midnight, is shown by the
    clocks and lies in the range of dates *)
Definition weekStartExists (t : Z) : Prop :=
  let l := localTime t in
  let monday := mondayOf (day l) * msPerDay in
  regularAt (monday + timeInDay l)
  /\ regularAt monday
  /\ Z.abs (utc (monday + timeInDay l)) <= maxTime
  /\ Z.abs (utc monday) <= maxTime.

End WithZone.

(** Central European time around the change of 31 March 2024: one hour
    ahead of UTC until 01:00 UTC of that day, two hours from then on;
    the local hour from 02:00 that the clocks skip is read with the
    offset before the change *)
Definition springForward : Z := 19813 * msPerDay + 3600000.

Definition europe : Zone :=
  Build_Zone (fun t => if t <? springForward then 3600000 else 7200000)
             (fun l => if l <? springForward + 7200000 then 3600000 else 7200000).

(** Sunday 31 March 2024, noon in Central European summer time *)
Definition changeSunday : Z := 19813 * msPerDay + 36000000.

End Zoned.

(** ** Hour totals in the arithmetic with infinities

    [calculateDayHours] once more, over numbers that can be an infinity:
    a value whose magnitude reaches [overflowAt] is an infinity, as it
    is when a long run of digits is parsed or a sum grows too large, and
    the difference of two equal infinities is NaN.  Finite values are
    still exact rationals: rounding is left out, overflow is not. *)

Module Wide.

Inductive xnum : Type :=
  | XNaN
  | XInf (negative : bool)
  | XNum (q : Qc).

(** the least magnitude that rounds to an infinity: 2^1024 - 2^970 *)
Definition overflowAt : Z := 2 ^ 1024 - 2 ^ 970.

(** the number an exact result becomes *)
Definition clip (q : Qc) : xnum :=
  if decide (of_Z overflowAt <= q)%Qc then XInf false
  else if decide (q <= of_Z (- overflowAt))%Qc then XInf true
  else XNum q.

Definition isNaN (x : xnum) : bool :=
  match x with XNaN => true | _ => false end.

Definition isFinite (x : xnum) : bool :=
  match x with XNum _ => true | _ => false end.

(** [a + b] *)
Definition add (a b : xnum) : xnum :=
  match a, b with
  | XNaN, _ | _, XNaN => XNaN
  | XInf s, XInf s' => if Bool.eqb s s' then XInf s else XNaN
  | XInf s, XNum _ | XNum _, XInf s => XInf s
  | XNum x, XNum y => clip (x + y)
  end.

Definition neg (a : xnum) : xnum :=
  match a with
  | XNaN => XNaN
  | XInf s => XInf (negb s)
  | XNum x => XNum (- x)
  end.

(** [a - b] *)
Definition sub (a b : xnum) : xnum := add a (neg b).

(** [a * 60] *)
Definition times60 (a : xnum) : xnum :=
  match a with
  | XNaN => XNaN
  | XInf s => XInf s
  | XNum x => clip (x * of_Z 60)
  end.

(** [a / 60] *)
Definition over60 (a : xnum) : xnum :=
  match a with
  | XNaN => XNaN
  | XInf s => XInf s
  | XNum x => XNum (x / of_Z 60)
  end.

(** [a < b], false when either is NaN *)
Definition lt (a b : xnum) : bool :=
  match a, b with
  | XNaN, _ | _, XNaN => false
  | XInf s, XInf s' => (s && negb s')%bool
  | XInf s, XNum _ => s
  | XNum _, XInf s => negb s
  | XNum x, XNum y => bool_decide (x < y)%Qc
  end.

(** [0 <= a], false on NaN *)
Definition nonneg (a : xnum) : Prop :=
  match a with
  | XNaN => False
  | XInf s => s = false
  | XNum x => (0 <= x)%Qc
  end.

(** [parseInt(s, 10)]: the integer read, an infinity when the run of
    digits is too long for a finite number *)
Definition parseInt (s : string) : xnum :=
  match Str.parseInt s with
  | None => XNaN
  | Some z => clip (of_Z z)
  end.

Record Entry : Type := mkEntry {
  startTime : option string;
  endTime : option string;
  hours : option xnum
}.

(** the callback of the first [reduce] (direct hours) *)
Definition directStep (total : xnum) (entry : Entry) : xnum :=
  let h := default (XNum 0) (hours entry) in
  add total (if isNaN h then XNum 0 else h).

(** the callback of the second [reduce] (time ranges) *)
Definition rangeStep (total : xnum) (entry : Entry) : xnum :=
  if (falsy_str (startTime entry) || falsy_str (endTime entry))%bool then total
  else
    let startParts := split colon (default ""%string (startTime entry)) in
    let endParts := split colon (default ""%string (endTime entry)) in
    if negb (Nat.eqb (List.length startParts) 2 && Nat.eqb (List.length endParts) 2)%bool
    then total
    else
      let startHour := parseInt (List.nth 0 startParts ""%string) in
      let startMin := parseInt (List.nth 1 startParts ""%string) in
      let endHour := parseInt (List.nth 0 endParts ""%string) in
      let endMin := parseInt (List.nth 1 endParts ""%string) in
      if (isNaN startHour || isNaN startMin || isNaN endHour || isNaN endMin)%bool
      then total
      else
        let startMinutes := add (times60 startHour) startMin in
        let endMinutes := add (times60 endHour) endMin in
        if lt endMinutes startMinutes then total
        else add total (over60 (sub endMinutes startMinutes)).

Definition calculateDayHours (entries : list Entry) (useDirectHours : bool) : xnum :=
  if useDirectHours then fold_left directStep entries (XNum 0)
  else fold_left rangeStep entries (XNum 0).

(** a total that is not negative, or NaN *)
Definition fine (a : xnum) : Prop := nonneg a \/ a = XNaN.

(** hours that are missing, NaN, or not negative *)
Definition hoursNonneg (e : Entry) : Prop :=
  match hours e with
  | Some h => isNaN h = true \/ nonneg h
  | None => True
  end.

(** the minutes since midnight that the code reads from a time string,
    when it reads them *)
Definition minutes (s : option string) : option xnum :=
  if falsy_str s then None
  else match split colon (default ""%string s) with
       | [h; m] =>
           if (isNaN (parseInt h) || isNaN (parseInt m))%bool then None
           else Some (add (times60 (parseInt h)) (parseInt m))
       | _ => None
       end.

(** neither minute count of the entry is an infinity or NaN *)
Definition timesFinite (e : Entry) : Prop :=
  match minutes (startTime e), minutes (endTime e) with
  | Some a, Some b => isFinite a = true /\ isFinite b = true
  | _, _ => True
  end.

(** neither time string of the entry has more than 300 characters *)
Definition timesShort (e : Entry) : Prop :=
  (String.length (default ""%string (startTime e)) <= 300)%nat
  /\ (String.length (default ""%string (endTime e)) <= 300)%nat.

(** a run of [n] nines *)
Fixpoint nines (n : nat) : string :=
  match n with
  | O => EmptyString
  | S k => String "9" (nines k)
  end.

(** an entry from and to the same overlong hour *)
Definition overlong : Entry :=
  mkEntry (Some (nines 400 +:+ ":00")) (Some (nines 400 +:+ ":00")) None.

(** the number of the wider arithmetic that a number is *)
Definition widenNum (n : num) : xnum :=
  match n with
  | NaN => XNaN
  | Num q => clip q
  end.

End Wide.

(** the entry of the wider arithmetic that a typed entry is *)
Definition widen (e : TimeEntry) : Wide.Entry :=
  Wide.mkEntry (startTime e) (endTime e) (Wide.widenNum <$> hours e).

(** * Properties *)

(** ** Hour aggregation *)

Section Aggregation.

Lemma split_nonempty sep s : split sep s <> [].
Proof.
  destruct s as [|c s]; simpl; [discriminate|].
  destruct (Ascii.eqb c sep); [discriminate|].
  destruct (split sep s); discriminate.
Qed.

Lemma rangeStep_contribution (t : Qc) (e : TimeEntry) :
  rangeStep (Num t) e = Num (t + contribution e)%Qc.
Proof.
  unfold rangeStep, contribution, minutesOf.
  destruct (falsy_str (startTime e)) eqn:Hs; simpl.
  { f_equal; ring. }
  destruct (falsy_str (endTime e)) eqn:He; simpl.
  { destruct (split colon (default ""%string (startTime e))) as [|a [|b [|c l]]];
      try (f_equal; ring).
    destruct (parseInt a), (parseInt b); f_equal; ring. }
  destruct (split colon (default ""%string (startTime e))) as [|a [|b [|c l]]];
    simpl; try (f_equal; ring);
  destruct (split colon (default ""%string (endTime e))) as [|a' [|b' [|c' l']]];
    simpl; try (f_equal; ring);
  try (destruct (parseInt a), (parseInt b); f_equal; ring).
  destruct (parseInt a) as [sh|], (parseInt b) as [sm|],
           (parseInt a') as [eh|], (parseInt b') as [em|]; try (f_equal; ring).
  destruct (eh * 60 + em <? sh * 60 + sm); [f_equal; ring | reflexivity].
Qed.

Lemma fold_rangeStep (es : list TimeEntry) (t : Qc) :
  fold_left rangeStep es (Num t) = Num (t + total (map contribution es))%Qc.
Proof.
  revert t; induction es as [|e es IH]; intros t; simpl.
  - f_equal; ring.
  - rewrite rangeStep_contribution, IH. f_equal; ring.
Qed.

Lemma digits_all_digits (s : string) :
  forallb is_digit (list_ascii_of_string s) = true ->
  forall acc, digits s acc true
              = Some (acc * 10 ^ Z.of_nat (String.length s) + decimal s).
Proof.
  induction s as [|c r IH];
    cbn [digits decimal String.length forallb list_ascii_of_string];
    intros Hd acc.
  - f_equal. change (10 ^ Z.of_nat 0) with 1. lia.
  - apply andb_prop in Hd as [Hc Hr]. unfold is_digit in Hc.
    destruct (digit_val c) as [d|]; [|discriminate]. cbn [default].
    rewrite (IH Hr). f_equal.
    rewrite Nat2Z.inj_succ, Z.pow_succ_r by lia. unfold id. ring.
Qed.

Lemma parseInt_numericPart (p : string) :
  numericPart p = true -> parseInt p = Some (decimal p).
Proof.
  destruct p as [|c r]; [discriminate|].
  unfold numericPart. cbn [list_ascii_of_string forallb]. intros Hd.
  apply andb_prop in Hd as [Hc Hr].
  assert (Hp : parseInt (String c r) = digits (String c r) 0 false).
  { unfold parseInt.
    destruct c as [[] [] [] [] [] [] [] []]; try discriminate Hc; reflexivity. }
  rewrite Hp. cbn [digits decimal]. unfold is_digit in Hc.
  destruct (digit_val c) as [d|]; [|discriminate]. cbn [default].
  rewrite (digits_all_digits r Hr). reflexivity.
Qed.

Lemma numericPart_nonempty (p : string) : numericPart p = true -> p <> ""%string.
Proof. destruct p; [discriminate | discriminate]. Qed.

Lemma strictMinutes_minutesOf (s : option string) (m : Z) :
  strictMinutes s = Some m -> minutesOf s = Some m.
Proof.
  destruct s as [t|]; [|discriminate]. unfold strictMinutes, minutesOf.
  destruct t as [|c t]; [discriminate|].
  cbn [falsy_str]. unfold default, id.
  destruct (split colon (String c t)) as [|h [|mi [|x l]]]; try discriminate.
  destruct (numericPart h) eqn:Hh; [|discriminate].
  destruct (numericPart mi) eqn:Hm; [|discriminate]. cbn [andb].
  rewrite (parseInt_numericPart h Hh), (parseInt_numericPart mi Hm).
  trivial.
Qed.

Lemma directStep_Num (t : Qc) (e : TimeEntry) :
  directStep (Num t) e
  = Num (t + match hours e with Some (Num q) => q | _ => 0 end)%Qc.
Proof. unfold directStep. destruct (hours e) as [[|q]|]; reflexivity. Qed.

Lemma fold_directStep_nonneg (es : list TimeEntry) (t : Qc) :
  (0 <= t)%Qc -> Forall hoursNonneg es -> nonneg (fold_left directStep es (Num t)).
Proof.
  revert t; induction es as [|e es IH]; intros t Ht Hes;
    cbn [fold_left]; [exact Ht|].
  inversion Hes as [|? ? He Hes']; subst.
  rewrite directStep_Num. unfold hoursNonneg in He.
  destruct (hours e) as [[|q]|].
  - apply IH; [|assumption]. replace (t + 0)%Qc with t by ring. exact Ht.
  - apply IH; [|assumption].
    replace 0%Qc with (0 + 0)%Qc by ring. apply Qcplus_le_compat; assumption.
  - apply IH; [|assumption]. replace (t + 0)%Qc with t by ring. exact Ht.
Qed.

Lemma div60_nonneg (z : Z) : 0 <= z -> (0 <= div60 z)%Qc.
Proof.
  intros Hz. unfold div60, Qcdiv.
  replace 0%Qc with (0 * / of_Z 60)%Qc by ring.
  apply Qcmult_le_compat_r.
  - unfold Qcle, of_Z. simpl. rewrite !Qred_correct.
    unfold Qle. simpl. lia.
  - apply Qclt_le_weak, Qcinv_pos. reflexivity.
Qed.

Lemma contribution_nonneg (e : TimeEntry) : (0 <= contribution e)%Qc.
Proof.
  unfold contribution.
  destruct (minutesOf (startTime e)) as [s|]; [|apply Qcle_refl].
  destruct (minutesOf (endTime e)) as [m|]; [|apply Qcle_refl].
  destruct (m <? s) eqn:Hlt; [apply Qcle_refl|].
  apply div60_nonneg. apply Z.ltb_ge in Hlt. lia.
Qed.

Lemma total_nonneg (l : list Qc) : Forall (fun q => (0 <= q)%Qc) l -> (0 <= total l)%Qc.
Proof.
  induction 1 as [|q l Hq _ IH]; simpl; [apply Qcle_refl|].
  replace 0%Qc with (0 + 0)%Qc by ring. apply Qcplus_le_compat; assumption.
Qed.

Lemma contribution_counts (e : TimeEntry) (s m : Z) :
  minutesOf (startTime e) = Some s -> minutesOf (endTime e) = Some m -> s <= m ->
  contribution e = div60 (m - s).
Proof.
  intros Hs Hm Hle. unfold contribution. rewrite Hs, Hm.
  destruct (m <? s) eqn:E; [|reflexivity]. apply Z.ltb_lt in E. lia.
Qed.

Lemma contribution_nothing (e : TimeEntry) :
  minutesOf (startTime e) = None \/ minutesOf (endTime e) = None
  \/ (exists s m, minutesOf (startTime e) = Some s
                  /\ minutesOf (endTime e) = Some m /\ m < s) ->
  contribution e = 0%Qc.
Proof.
  unfold contribution. intros [H|[H|[s [m [Hs [Hm Hlt]]]]]].
  - rewrite H. reflexivity.
  - rewrite H. destruct (minutesOf (startTime e)); reflexivity.
  - rewrite Hs, Hm. apply Z.ltb_lt in Hlt. rewrite Hlt. reflexivity.
Qed.

End Aggregation.



(** ** Week navigation *)

Section Navigation.
Context {host : Host}.

Lemma localTime_bound (t : Z) : 0 <= localTime t < msPerDay.
Proof. unfold localTime, msPerDay. apply Z.mod_pos_bound. lia. Qed.

Lemma localDay_ofLocal (d ms : Z) :
  0 <= ms < msPerDay -> localDay (ofLocal d ms) = d.
Proof.
  intros Hms. unfold localDay, ofLocal.
  replace (d * msPerDay + ms - tzOffset + tzOffset) with (ms + d * msPerDay) by ring.
  unfold msPerDay in *. rewrite Z.div_add by lia. rewrite Z.div_small by lia. lia.
Qed.

Lemma localTime_ofLocal (d ms : Z) :
  0 <= ms < msPerDay -> localTime (ofLocal d ms) = ms.
Proof.
  intros Hms. unfold localTime, ofLocal.
  replace (d * msPerDay + ms - tzOffset + tzOffset) with (ms + d * msPerDay) by ring.
  unfold msPerDay in *. rewrite Z.mod_add by lia. apply Z.mod_small. lia.
Qed.

Lemma getMonday_value (t : Z) :
  getMonday (TimeValue t) = TimeValue (ofLocal (mondayOf (localDay t)) 0).
Proof.
  unfold getMonday, setMidnight, setDate, getDate, getDay. f_equal.
  rewrite localDay_ofLocal by apply localTime_bound.
  f_equal. unfold mondayOf. lia.
Qed.

Lemma mondayOf_weekday (d : Z) : (mondayOf d + 4) mod 7 = 1.
Proof.
  unfold mondayOf. destruct ((d + 4) mod 7 =? 0) eqn:E.
  - apply Z.eqb_eq in E. Z.div_mod_to_equations. lia.
  - apply Z.eqb_neq in E. Z.div_mod_to_equations. lia.
Qed.

Lemma mondayOf_range (d : Z) : mondayOf d <= d < mondayOf d + 7.
Proof.
  unfold mondayOf. destruct ((d + 4) mod 7 =? 0) eqn:E.
  - apply Z.eqb_eq in E. Z.div_mod_to_equations. lia.
  - apply Z.eqb_neq in E. Z.div_mod_to_equations. lia.
Qed.

Lemma mondayOf_fixed (d : Z) : (d + 4) mod 7 = 1 -> mondayOf d = d.
Proof. intros E. unfold mondayOf. rewrite E. simpl. lia. Qed.

End Navigation.

(** ** Updates of a week *)

Section WeekUpdates.

Lemma lookup_mapi {A B : Type} (f : A -> nat -> B) (l : list A) (i : nat) :
  mapi f l !! i = (fun x => f x i) <$> l !! i.
Proof. unfold mapi. apply list_lookup_imap. Qed.

Lemma Forall_mapi {A B : Type} (P : A -> Prop) (Q : B -> Prop)
    (f : A -> nat -> B) (l : list A) :
  (forall x i, P x -> Q (f x i)) -> Forall P l -> Forall Q (mapi f l).
Proof.
  intros Hf Hl. apply Forall_lookup_2. intros i y Hy.
  rewrite lookup_mapi in Hy.
  destruct (l !! i) as [x|] eqn:Hx; [|discriminate].
  inversion Hy; subst. apply Hf. exact (Forall_lookup_1 _ _ _ _ Hl Hx).
Qed.

Lemma add_zero_r (n : num) : add n zero = n.
Proof. destruct n as [|q]; [reflexivity|]. simpl. f_equal. ring. Qed.

Lemma calculateDayHours_blank (es : list TimeEntry) (mode : bool) :
  calculateDayHours (es ++ [blankEntry]) mode = calculateDayHours es mode.
Proof.
  unfold calculateDayHours. destruct mode; rewrite fold_left_app; cbn [fold_left].
  - unfold directStep at 1. simpl. apply add_zero_r.
  - reflexivity.
Qed.

Lemma toggleDay_twice (d : DayEntry) : inSync d -> toggleDay (toggleDay d) = d.
Proof.
  unfold inSync, toggleDay. destruct d as [dt es tot mode]. simpl.
  intros ->. rewrite negb_involutive. reflexivity.
Qed.

End WeekUpdates.

(** C6 (as amended).  For every day record, one toggle leaves every
    entries list as it was and sets the day's total to the total of
    those entries under the new mode.  For a day whose total is the
    total of its entries under its mode, toggling the mode twice gives
    the day back, total included. *)
Theorem toggleInputMode_round_trip (i : nat) (week : list DayEntry) :
  map entries (toggleInputMode i week) = map entries week
  /\ (forall d, week !! i = Some d ->
       toggleInputMode i week !! i
       = Some (mkDay (date d) (entries d)
                     (calculateDayHours (entries d) (negb (useDirectHours d)))
                     (negb (useDirectHours d))))
  /\ ((forall d, week !! i = Some d -> inSync d) ->
      toggleInputMode i (toggleInputMode i week) = week).
Proof.
  split; [|split].
  - apply list_eq. intros j. unfold toggleInputMode.
    rewrite !list_lookup_fmap, lookup_mapi.
    destruct (week !! j) as [d|]; [|reflexivity]. simpl.
    destruct (Nat.eqb j i); reflexivity.
  - intros d Hd. unfold toggleInputMode. rewrite lookup_mapi, Hd. simpl.
    rewrite Nat.eqb_refl. reflexivity.
  - intros H. apply list_eq. intros j. unfold toggleInputMode.
    rewrite !lookup_mapi.
    destruct (week !! j) as [d|] eqn:Hd; [|reflexivity]. simpl.
    destruct (Nat.eqb j i) eqn:E; [|reflexivity].
    apply Nat.eqb_eq in E; subst j. f_equal. apply toggleDay_twice, H, Hd.
Qed.

Lemma toggleInputMode_round_trip_witness :
  let d := mkDay (TimeValue 0) [mkEntry (Some "09:00"%string) (Some "17:00"%string) (Some zero)]
                 (Num (of_Z 8)) false in
  toggleInputMode 0 (toggleInputMode 0 [d]) = [d]
  /\ toggleInputMode 0 [d] !! 0%nat
     = Some (mkDay (TimeValue 0) (entries d) (calculateDayHours (entries d) true) true).
Proof.
  intros d.
  pose proof (toggleInputMode_round_trip 0 [d]) as [_ [H2 H3]].
  split; [|apply (H2 d); reflexivity].
  apply H3. intros d' Hd'. inversion Hd'; subst d'. unfold inSync. vm_compute.
  reflexivity.
Defined.

(** C6, as stated, fails: a day that carries a total of 5 with no
    entries (as an imported file may set it) has total 0 after two
    toggles. *)
Lemma toggleInputMode_stale_total_counterexample :
  let d := mkDay (TimeValue 0) [] (Num (of_Z 5)) false in
  map totalHours (toggleInputMode 0 (toggleInputMode 0 [d])) <> map totalHours [d].
Proof.
  vm_compute. intros H. inversion H.
Qed.

(** C10.  Editing a field, toggling the mode, adding an entry and
    deleting an entry each keep, for every day, the total equal to
    [calculateDayHours] of the entries under the day's mode; adding
    keeps it because a blank entry adds nothing in either mode. *)
Theorem updates_keep_inSync {host : Host} (week : list DayEntry)
    (dayIndex entryIndex : nat) (field : Field) (value : string)
    (H : Forall inSync week) :
  Forall inSync (handleTimeChange dayIndex entryIndex field value week)
  /\ Forall inSync (toggleInputMode dayIndex week)
  /\ Forall inSync (addTimeEntry dayIndex week)
  /\ Forall inSync (deleteTimeEntry dayIndex entryIndex week)
  /\ (forall es mode,
       calculateDayHours (es ++ [blankEntry]) mode = calculateDayHours es mode).
Proof.
  repeat split.
  - unfold handleTimeChange. apply (Forall_mapi inSync); [|exact H].
    intros d i Hd. destruct (Nat.eqb i dayIndex); [reflexivity | exact Hd].
  - unfold toggleInputMode. apply (Forall_mapi inSync); [|exact H].
    intros d i Hd. destruct (Nat.eqb i dayIndex); [reflexivity | exact Hd].
  - unfold addTimeEntry. apply (Forall_mapi inSync); [|exact H].
    intros d i Hd. destruct (Nat.eqb i dayIndex); [|exact Hd].
    unfold inSync in *. simpl. rewrite calculateDayHours_blank. exact Hd.
  - unfold deleteTimeEntry. apply (Forall_mapi inSync); [|exact H].
    intros d i Hd. destruct (Nat.eqb i dayIndex); [reflexivity | exact Hd].
  - apply calculateDayHours_blank.
Qed.

(** ** Import *)

Section ImportHandler.
Context {host : Host}.

Lemma mapM_isOk {A B : Type} (f : A -> M B) (p : A -> bool) (l : list A) :
  (forall x, isOk (f x) = p x) -> isOk (mapM f l) = forallb p l.
Proof.
  intros Hf. induction l as [|x l IH]; [reflexivity|].
  cbn [mapM forallb]. rewrite <- Hf, <- IH.
  destruct (f x); [reflexivity|]. simpl. destruct (mapM f l); reflexivity.
Qed.

Lemma importEntry_isOk (entry : value) : isOk (importEntry entry) = entryImportable entry.
Proof. destruct entry; reflexivity. Qed.

Lemma newDate_isOk (v : value) : isOk (newDate v) = convertible v.
Proof.
  destruct v as [| |b|[|q]|s|d| |items|props]; try reflexivity;
    unfold newDate; destruct (convertible _); reflexivity.
Qed.

Lemma parseFloat_isOk (v : value) : isOk (parseFloat v) = convertible v.
Proof.
  destruct v as [| |b|n|s|d| |items|props]; try reflexivity;
    unfold parseFloat; destruct (convertible _); reflexivity.
Qed.

Lemma importDay_isOk (day : value) : isOk (importDay day) = dayImportable day.
Proof.
  destruct day as [| | | | | | |items|props]; try reflexivity.
  unfold importDay, dayImportable. cbn [get bind ret].
  rewrite <- newDate_isOk.
  destruct (newDate (lookupProp "date" props)) as [e|dt]; cbn [isOk bind andb];
    [reflexivity|].
  destruct (lookupProp "entries" props) as [| | | | | | |es|ps]; try reflexivity.
  cbn [arrayMap]. rewrite <- (mapM_isOk importEntry entryImportable es importEntry_isOk).
  destruct (mapM importEntry es); reflexivity.
Qed.

Lemma readImport_fails (c : content) :
  wellShaped c = false -> isOk (readImport c) = false.
Proof.
  destruct c as [s|data]; [reflexivity|].
  unfold wellShaped, readImport. cbn [JSON_parse bind ret].
  destruct data; try reflexivity; cbn [get bind ret];
    try (cbn [truthy negb]; reflexivity).
  destruct (truthy (lookupProp "selectedMonday" props)); cbn [negb andb bind throw];
    [|reflexivity].
  destruct (isArray (lookupProp "weekData" props)); [discriminate|reflexivity].
Qed.

Lemma handleFileSelect_refuses (c : content) (w : World) :
  isOk (readImport c) = false -> handleFileSelect (Some c) w = refused w.
Proof.
  unfold handleFileSelect, importTry.
  destruct (readImport c) as [e|r]; [reflexivity|discriminate].
Qed.

End ImportHandler.

Section ImportAccepts.
Context {host : Host}.

Lemma importTry_accepts (c : content) (w : World) :
  snd (importTry c w) = None <-> importableDoc c = true.
Proof.
  unfold importTry, importableDoc, readImport.
  destruct c as [s|data]; cbn [JSON_parse bind ret throw snd];
    [split; discriminate|].
  destruct data as [| | | | | | |items|props];
    cbn [get bind ret throw truthy negb snd]; try (split; discriminate).
  destruct (lookupProp "weekData" props) as [| | | | | | |days|ps] eqn:Hwd;
    destruct (truthy (lookupProp "selectedMonday" props)) eqn:Hsm;
    cbn [isArray negb andb bind ret throw snd]; try (split; discriminate).
  cbn [arrayMap].
  rewrite <- (mapM_isOk importDay dayImportable days importDay_isOk).
  destruct (newDate (lookupProp "selectedMonday" props)) as [e|m];
    cbn [bind snd]; [rewrite andb_false_r; split; discriminate|].
  destruct (mapM importDay days) as [e|r]; cbn [isOk bind ret snd andb];
    [split; discriminate|].
  destruct m as [|t]; cbn [getLocalStorageKey throw ret validDate snd andb];
    [split; discriminate|].
  split; reflexivity.
Qed.

Lemma importableDoc_wellShaped (c : content) :
  importableDoc c = true -> wellShaped c = true.
Proof.
  unfold importableDoc, wellShaped. destruct c as [s|data]; [discriminate|].
  destruct (get data "selectedMonday") as [e|sm]; [discriminate|].
  destruct (get data "weekData") as [e|wd]; [discriminate|].
  destruct wd; try discriminate.
  destruct (truthy sm); [|discriminate]. reflexivity.
Qed.

(** A document whose [selectedMonday] is not a date passes the check;
    the state is set before [toISOString] throws, so the alert is shown
    over a changed state. *)
Example import_invalid_monday :
  wellShaped Cases.noDate = true
  /\ handleFileSelect (host := Sample.host) (Some Cases.noDate) Cases.world0
     = mkWorld (mkState InvalidDate [] zero) ∅ [importFailed].
Proof. split; vm_compute; reflexivity. Qed.

(** A document with a day whose date is an object that [new Date] cannot
    turn into a primitive has the declared shape, and is refused: the
    [TypeError] is caught like any other. *)
Example import_stubborn_date :
  wellShaped MoreCases.stubbornDate = true
  /\ importableDoc (host := Sample.host) MoreCases.stubbornDate = false
  /\ handleFileSelect (host := Sample.host) (Some MoreCases.stubbornDate) Cases.world0
     = refused Cases.world0.
Proof. repeat split; vm_compute; reflexivity. Qed.

End ImportAccepts.

(** C3 (as amended).  The import handler takes a file over exactly when
    the parsed document has a [selectedMonday] that is not falsy and
    denotes a valid date, and a [weekData] array, of any length, whose
    elements are objects with an array of entries free of [null]; so it
    refuses, with the alert and nothing else changed, every document
    that lacks [selectedMonday] or the [weekData] array. *)
Theorem import_accepts_iff {host : Host} (c : content) (w : World) :
  (snd (importTry c w) = None <-> importableDoc c = true)
  /\ (importableDoc c = true -> wellShaped c = true)
  /\ (wellShaped c = false -> handleFileSelect (Some c) w = refused w).
Proof.
  split; [apply importTry_accepts|]. split; [apply importableDoc_wellShaped|].
  intros Hc. apply handleFileSelect_refuses, readImport_fails, Hc.
Qed.

Lemma import_accepts_iff_witness :
  importableDoc (host := Sample.host) Cases.oneDay = true
  /\ snd (importTry (host := Sample.host) Cases.oneDay Cases.world0) = None
  /\ wellShaped Cases.oneDay = true
  /\ wellShaped (Raw "{") = false
  /\ handleFileSelect (host := Sample.host) (Some (Raw "{")) Cases.world0
     = refused Cases.world0.
Proof.
  pose proof (import_accepts_iff (host := Sample.host) Cases.oneDay Cases.world0)
    as [Hiff [Hshape _]].
  pose proof (import_accepts_iff (host := Sample.host) (Raw "{") Cases.world0)
    as [_ [_ Hrefuse]].
  assert (Hd : importableDoc (host := Sample.host) Cases.oneDay = true)
    by (vm_compute; reflexivity).
  split; [exact Hd|]. split; [exact (proj2 Hiff Hd)|].
  split; [exact (Hshape Hd)|]. split; [reflexivity|].
  apply Hrefuse. reflexivity.
Defined.

(** C3, as stated, fails: a document with a Monday and an empty
    [weekData] array is taken over, though it has no day record. *)
Lemma import_no_days_counterexample :
  wellShaped Cases.noDays = true
  /\ snd (importTry (host := Sample.host) Cases.noDays Cases.world0) = None
  /\ weekData (state (handleFileSelect (host := Sample.host) (Some Cases.noDays) Cases.world0)) = []
  /\ alerts (handleFileSelect (host := Sample.host) (Some Cases.noDays) Cases.world0) = []
  /\ List.length (weekData (state (handleFileSelect (host := Sample.host) (Some Cases.noDays) Cases.world0))) <> 7%nat.
Proof.
  repeat split; try (vm_compute; reflexivity).
  vm_compute. discriminate.
Qed.

(** C5, where the code departs from it.  When the [try] block throws
    before its first state update (the text is not JSON, the document
    lacks [selectedMonday] or the [weekData] array, a day cannot be
    read), the handler leaves the selected Monday, the week data, the
    wage and the storage as they were and shows the alert.  When the
    document passes these but its [selectedMonday] is no date, the
    selected Monday and the week data are already replaced when
    [toISOString] throws: the alert is shown over a changed state. *)
Theorem import_alert_over_changed_state {host : Host} (c : content) (w : World) :
  (isOk (JSON_parse c) = false \/ wellShaped c = false -> isOk (readImport c) = false)
  /\ (isOk (readImport c) = false -> handleFileSelect (Some c) w = refused w)
  /\ (forall days, readImport c = inr (InvalidDate, days) ->
        handleFileSelect (Some c) w
        = mkWorld (mkState InvalidDate days (hourlyWage (state w)))
                  (storage w) (importFailed :: alerts w)).
Proof.
  split; [|split].
  - intros [H|H]; [|apply readImport_fails, H].
    apply readImport_fails. destruct c; [reflexivity|discriminate].
  - apply handleFileSelect_refuses.
  - intros days H. unfold handleFileSelect, importTry. rewrite H. reflexivity.
Qed.

Lemma import_alert_over_changed_state_witness :
  handleFileSelect (host := Sample.host) (Some (Raw "oops")) Cases.world0
  = refused Cases.world0
  /\ handleFileSelect (host := Sample.host) (Some Cases.noDate) Cases.world0
     = mkWorld (mkState InvalidDate [] zero) ∅ [importFailed]
  /\ state (handleFileSelect (host := Sample.host) (Some Cases.noDate) Cases.world0)
     <> state Cases.world0.
Proof.
  pose proof (import_alert_over_changed_state (host := Sample.host) (Raw "oops") Cases.world0)
    as [H1 [H2 _]].
  pose proof (import_alert_over_changed_state (host := Sample.host) Cases.noDate Cases.world0)
    as [_ [_ H3]].
  assert (E : handleFileSelect (host := Sample.host) (Some Cases.noDate) Cases.world0
              = mkWorld (mkState InvalidDate [] zero) ∅ [importFailed]).
  { apply (H3 []). vm_compute. reflexivity. }
  split; [apply H2, H1; left; reflexivity|]. split; [exact E|].
  rewrite E. discriminate.
Defined.

(** ** Export and import *)

Section RoundTrip.
Context {host : Host}.

Lemma toJSON_ofEntry (e : TimeEntry) :
  exists props, toJSON (ofEntry e) = Some (VObj props).
Proof. unfold ofEntry. cbn [toJSON]. eexists. reflexivity. Qed.

Lemma importEntries_ok (es : list TimeEntry) :
  isOk (mapM importEntry (map (fun x => default VNull (toJSON x)) (map ofEntry es))) = true.
Proof.
  rewrite (mapM_isOk importEntry entryImportable _ importEntry_isOk).
  apply forallb_forall. intros v Hv.
  apply in_map_iff in Hv as [x [<- Hx]]. apply in_map_iff in Hx as [e [<- _]].
  destruct (toJSON_ofEntry e) as [props ->]. reflexivity.
Qed.

Lemma importDay_exported (d : DayEntry) :
  isNaN (totalHours d) = false ->
  exists v, importDay (default VNull (toJSON (ofDay d))) = inr v
            /\ propOf "totalHours" v = VNum (totalHours d).
Proof.
  destruct d as [dt es tot mode]. cbn [totalHours]. intros Htot.
  destruct tot as [|q]; [discriminate|].
  pose proof (importEntries_ok es) as Hes.
  destruct (mapM importEntry (map (fun x => default VNull (toJSON x)) (map ofEntry es)))
    as [e|es'] eqn:Hmap; [discriminate|].
  unfold importDay, ofDay.
  destruct dt as [|t]; cbn; rewrite Hmap; cbn; eexists; split; reflexivity.
Qed.

Lemma importDays_exported (week : list DayEntry) :
  Forall (fun d => isNaN (totalHours d) = false) week ->
  exists vs, mapM importDay (map (fun x => default VNull (toJSON x)) (ofWeek week)) = inr vs
             /\ totalsOf vs = totalsOf (ofWeek week).
Proof.
  induction 1 as [|d week Hd _ [vs [Hvs Htot]]].
  - exists []. split; reflexivity.
  - destruct (importDay_exported d Hd) as [v [Hv Hp]].
    exists (v :: vs). unfold ofWeek in *. cbn [map mapM].
    rewrite Hv. cbn [bind]. rewrite Hvs. cbn [bind ret].
    split; [reflexivity|].
    unfold totalsOf in *. cbn [map]. rewrite Hp, Htot. reflexivity.
Qed.

End RoundTrip.

(** C7 (as amended).  For a week state of the declared shape whose
    Monday is a valid date that the date parser reads back from its ISO
    string, and whose per-day totals are finite numbers (not NaN, which
    like an infinity is written as [null]), exporting the document and
    importing it gives the same Monday and the same total for every day,
    with no alert. *)
Theorem export_import_round_trip {host : Host} (t : Z) (week : list DayEntry)
    (wage : num) (store : gmap string content) (shown : list string)
    (Hiso : toISOString t <> ""%string)
    (Hdate : parseDate (toISOString t) = TimeValue t)
    (Htot : Forall (fun d => isFinite (totalHours d) = true) week) :
  let w := mkWorld (mkState (TimeValue t) (ofWeek week) wage) store shown in
  selectedMonday (state (exportImport w)) = TimeValue t
  /\ totalsOf (weekData (state (exportImport w))) = totalsOf (ofWeek week)
  /\ alerts (exportImport w) = shown.
Proof.
  intros w. unfold exportImport, handleFileSelect, importTry, readImport, downloadJSON.
  unfold JSON_stringify, w. cbn [state selectedMonday weekData toJSON JSON_parse bind ret].
  cbn [get lookupProp String.eqb Ascii.eqb Bool.eqb bind ret].
  assert (Htr : truthy (VStr (toISOString t)) = true).
  { cbn [truthy]. destruct (String.eqb_spec (toISOString t) ""%string); [contradiction|reflexivity]. }
  simpl lookupProp. rewrite Htr. cbn [negb isArray bind ret arrayMap newDate].
  assert (Htot' : Forall (fun d => isNaN (totalHours d) = false) week).
  { eapply Forall_impl; [exact Htot|]. intros d. unfold isFinite.
    destruct (isNaN (totalHours d)); [intros H; discriminate H|reflexivity]. }
  destruct (importDays_exported week Htot') as [vs [Hvs Hp]].
  rewrite Hvs. cbn [bind ret]. rewrite Hdate.
  cbn [getLocalStorageKey ret state selectedMonday weekData alerts].
  repeat split. exact Hp.
Qed.

Lemma export_import_round_trip_witness :
  let w := Cases.worldOf [Cases.workDay] in
  selectedMonday (state (exportImport (host := Sample.host) w)) = TimeValue Sample.monday
  /\ totalsOf (weekData (state (exportImport (host := Sample.host) w)))
     = totalsOf (ofWeek [Cases.workDay])
  /\ alerts (exportImport (host := Sample.host) w) = [].
Proof.
  apply (export_import_round_trip (host := Sample.host) Sample.monday
           [Cases.workDay] zero ∅ []).
  - vm_compute. discriminate.
  - vm_compute. reflexivity.
  - repeat constructor.
Defined.

(** C7, as stated, fails: a total that is NaN is written as [null], and
    [null] is what the imported day holds. *)
Lemma export_import_nan_counterexample :
  let w := Cases.worldOf [Cases.nanDay] in
  alerts (exportImport (host := Sample.host) w) = []
  /\ totalsOf (weekData (state (exportImport (host := Sample.host) w))) = [VNull]
  /\ totalsOf (ofWeek [Cases.nanDay]) = [VNum NaN]
  /\ totalsOf (weekData (state (exportImport (host := Sample.host) w)))
     <> totalsOf (weekData (state w)).
Proof.
  repeat split; try (vm_compute; reflexivity).
  vm_compute. discriminate.
Qed.

(** ** Loading a stored week *)

Section Loading.
Context {host : Host}.

Lemma lookupProp_setProp (k k' : string) (v : value) (props : list (string * value)) :
  lookupProp k (setProp k' v props)
  = if String.eqb k' k then v else lookupProp k props.
Proof.
  induction props as [|[k0 v0] props IH]; cbn [setProp lookupProp].
  - reflexivity.
  - destruct (String.eqb_spec k0 k') as [->|Hne]; cbn [lookupProp].
    + destruct (String.eqb k' k); reflexivity.
    + rewrite IH. destruct (String.eqb_spec k' k) as [->|Hne'].
      * destruct (String.eqb_spec k0 k) as [->|_]; [contradiction|reflexivity].
      * reflexivity.
Qed.

Lemma loadWeek_raw (t : Z) (week : list value) (wage : num)
    (store : gmap string content) (text : string) :
  loadWeek (mkState (TimeValue t) week wage)
           (<[TIMESHEET_PREFIX +:+ List.nth 0 (split "T"%char (toISOString t)) ""%string
              := Raw text]> store)
  = inr (initializeNewWeek (TimeValue t)).
Proof.
  unfold loadWeek. cbn [selectedMonday getLocalStorageKey bind ret].
  rewrite lookup_insert_eq. destruct (nonEmpty (Raw text)); reflexivity.
Qed.

End Loading.

(** C4, where the code departs from it.  A stored day is loaded with
    the total [parseFloat] reads from the stored one, which is NaN, not
    0, when the stored total is missing or is not a number:
    [parseFloat] never returns [null] or [undefined], so the [?? 0] that
    follows it never applies.  The other defaults are as claimed: the
    entries are one blank entry when missing, the mode is time-range
    when missing, and text that is not JSON gives the fresh week of
    seven days.  A stored day is refused only when its date or its total
    is an array or object that cannot be turned into a primitive. *)
Theorem load_missing_total_is_NaN {host : Host} (props : list (string * value))
    (t : Z) (week : list value) (wage : num) (store : gmap string content)
    (text : string) :
  match sanitizeDay (VObj props) with
  | inr day =>
      (exists total,
          parseFloat (lookupProp "totalHours" props) = inr total
          /\ propOf "totalHours" day = VNum total)
      /\ propOf "entries" day
         = coalesce (lookupProp "entries" props)
             (VArr [VObj [("startTime"%string, VStr ""); ("endTime"%string, VStr "")]])
      /\ propOf "useDirectHours" day
         = coalesce (lookupProp "useDirectHours" props) (VBool false)
  | inl _ =>
      (convertible (lookupProp "date" props)
       && convertible (lookupProp "totalHours" props))%bool = false
  end
  /\ parseFloat VUndef = inr NaN
  /\ loadWeek (mkState (TimeValue t) week wage)
        (<[TIMESHEET_PREFIX +:+ List.nth 0 (split "T"%char (toISOString t)) ""%string
           := Raw text]> store)
     = inr (initializeNewWeek (TimeValue t))
  /\ List.length (initializeNewWeek (TimeValue t)) = 7%nat
  /\ (exists day,
      loadWeek (host := Sample.host) Cases.stateAt {[ Cases.mondayKey := Cases.bareDay ]}
      = inr [day]
      /\ propOf "totalHours" day = VNum NaN
      /\ propOf "entries" day
         = VArr [VObj [("startTime"%string, VStr ""); ("endTime"%string, VStr "")]]
      /\ propOf "useDirectHours" day = VBool false)
  /\ (exists day,
      loadWeek (host := Sample.host) Cases.stateAt {[ Cases.mondayKey := Cases.wordTotal ]}
      = inr [day]
      /\ propOf "totalHours" day = VNum NaN).
Proof.
  split; [|split; [|split; [|split; [|split]]]].
  - unfold sanitizeDay. cbn [get bind ret].
    rewrite <- newDate_isOk, <- parseFloat_isOk.
    destruct (newDate (lookupProp "date" props)) as [e|date]; cbn [bind isOk andb];
      [reflexivity|].
    destruct (parseFloat (lookupProp "totalHours" props)) as [e|total];
      cbn [bind ret isOk]; [reflexivity|].
    cbn [propOf spread]. rewrite !lookupProp_setProp.
    cbn [String.eqb Ascii.eqb Bool.eqb].
    split; [exists total; split; reflexivity|]. split; reflexivity.
  - reflexivity.
  - apply loadWeek_raw.
  - reflexivity.
  - eexists. split; [vm_compute; reflexivity|]. repeat split.
  - eexists. split; [vm_compute; reflexivity|]. reflexivity.
Qed.

(** ** Clear all *)

Section ClearAll.
Context {host : Host}.

Lemma prefix_append (p x : string) : String.prefix p (p +:+ x) = true.
Proof.
  induction p as [|a p IH]; [destruct x; reflexivity|].
  simpl. destruct (ascii_dec a a); [exact IH|contradiction].
Qed.

Lemma lookup_remove_keys (keys : list string) (m : gmap string content) (k : string) :
  foldr (fun key acc => if String.prefix TIMESHEET_PREFIX key then delete key acc else acc)
        m keys !! k
  = if (String.prefix TIMESHEET_PREFIX k && bool_decide (k ∈ keys))%bool
    then None else m !! k.
Proof.
  induction keys as [|key keys IH]; cbn [foldr].
  - rewrite andb_false_r. reflexivity.
  - destruct (decide (key = k)) as [->|Hne].
    + rewrite (bool_decide_eq_true_2 (k ∈ k :: keys)) by left.
      rewrite andb_true_r.
      destruct (String.prefix TIMESHEET_PREFIX k) eqn:Hp.
      * apply lookup_delete_eq.
      * rewrite IH. reflexivity.
    + assert (Hmem : bool_decide (k ∈ key :: keys) = bool_decide (k ∈ keys)).
      { apply bool_decide_ext. rewrite elem_of_cons.
        split; [intros [E|E]; [congruence|exact E] | intros E; right; exact E]. }
      rewrite Hmem.
      destruct (String.prefix TIMESHEET_PREFIX key).
      * rewrite lookup_delete_ne by exact Hne. exact IH.
      * exact IH.
Qed.

Lemma lookup_removeWeeks (m : gmap string content) (k : string) :
  removeWeeks m !! k = if String.prefix TIMESHEET_PREFIX k then None else m !! k.
Proof.
  unfold removeWeeks. rewrite lookup_remove_keys.
  destruct (String.prefix TIMESHEET_PREFIX k); [|reflexivity].
  cbn [andb]. destruct (bool_decide (k ∈ map fst (map_to_list m))) eqn:Hk; [reflexivity|].
  apply bool_decide_eq_false in Hk.
  destruct (m !! k) as [c|] eqn:Hc; [|reflexivity].
  exfalso. apply Hk. apply list_elem_of_In, in_map_iff.
  exists (k, c). split; [reflexivity|].
  apply list_elem_of_In, elem_of_map_to_list, Hc.
Qed.

Lemma lookup_clearAll (w : World) (k : string) :
  storage (clearAll w) !! k
  = if (String.prefix TIMESHEET_PREFIX k || String.eqb k WAGE_KEY)%bool
    then None else storage w !! k.
Proof.
  unfold clearAll. cbn [storage]. rewrite lookup_delete.
  destruct (decide (WAGE_KEY = k)) as [<-|Hne].
  - rewrite String.eqb_refl, orb_true_r. reflexivity.
  - rewrite lookup_removeWeeks.
    destruct (String.eqb_spec k WAGE_KEY) as [->|_]; [contradiction|].
    rewrite orb_false_r. reflexivity.
Qed.

Lemma getLocalStorageKey_prefix (t : Z) :
  exists key, getLocalStorageKey (TimeValue t) = inr key
              /\ String.prefix TIMESHEET_PREFIX key = true
              /\ String.eqb key WAGE_KEY = false.
Proof.
  eexists. split; [reflexivity|]. split; [apply prefix_append|].
  reflexivity.
Qed.

End ClearAll.

Section ClearAllSettled.
Context {host : Host}.

Lemma saveWeek_emptyWeek (m : Z) (wage : num) (store : gmap string content) (week : list value) :
  week = ofWeek (emptyWeek (TimeValue m)) ->
  saveWeek (mkState (TimeValue m) week wage) store
  = inr (<[TIMESHEET_PREFIX +:+ List.nth 0 (split "T"%char (toISOString m)) ""%string
          := JSON_stringify (VArr week)]> store).
Proof. intros ->. reflexivity. Qed.

Lemma loadWeek_cleared (w : World) (m : Z) (wage : num) (week : list value) :
  loadWeek (mkState (TimeValue m) week wage) (storage (clearAll w))
  = inr (ofWeek (emptyWeek (TimeValue m))).
Proof.
  unfold loadWeek. cbn [selectedMonday getLocalStorageKey bind ret].
  rewrite lookup_clearAll, prefix_append. reflexivity.
Qed.

End ClearAllSettled.

(** C8 (as amended).  When [clearAll] returns, the storage holds no key
    with the week prefix and no wage key, every other key is as before,
    the wage in memory is 0, and the week is seven days from the present
    week's Monday, each with one blank entry, total 0 and time-range
    mode.  The effects that run after it then store that empty week
    again under the present Monday's key, and store the wage 0 under the
    wage key when the wage was not 0 before; no other week key comes
    back. *)
Theorem clearAll_result {host : Host} (w : World) :
  let monday := getMonday (TimeValue now) in
  (forall k, storage (clearAll w) !! k
             = if (String.prefix TIMESHEET_PREFIX k || String.eqb k WAGE_KEY)%bool
               then None else storage w !! k)
  /\ state (clearAll w) = mkState monday (ofWeek (emptyWeek monday)) zero
  /\ map (fun d => (entries d, totalHours d, useDirectHours d)) (emptyWeek monday)
     = replicate 7 ([blankEntry], zero, false)
  /\ map date (emptyWeek monday)
     = map (fun i => dayOfWeekFrom monday (Z.of_nat i)) (seq 0 7)
  /\ exists key w2,
       getLocalStorageKey monday = inr key
       /\ String.prefix TIMESHEET_PREFIX key = true
       /\ clearAllSettled w = inr w2
       /\ state w2 = state (clearAll w)
       /\ alerts w2 = alerts w
       /\ forall k, storage w2 !! k
            = if String.eqb k key
              then Some (JSON_stringify (VArr (ofWeek (emptyWeek monday))))
              else if String.eqb k WAGE_KEY
                   then (if decide (hourlyWage (state w) = zero) then None
                         else Some (numberText zero))
                   else if String.prefix TIMESHEET_PREFIX k then None
                        else storage w !! k.
Proof.
  intros monday.
  split; [apply lookup_clearAll|]. split; [reflexivity|].
  split; [reflexivity|]. split; [reflexivity|].
  unfold monday. rewrite getMonday_value.
  set (m := ofLocal (mondayOf (localDay now)) 0).
  destruct (getLocalStorageKey_prefix m) as [key [Hkey [Hpre Hwage]]].
  assert (Hst : state (clearAll w)
                = mkState (TimeValue m) (ofWeek (emptyWeek (TimeValue m))) zero).
  { unfold clearAll. cbn [state]. rewrite getMonday_value. reflexivity. }
  injection Hkey as <-.
  set (key := TIMESHEET_PREFIX +:+ List.nth 0 (split "T"%char (toISOString m)) ""%string) in *.
  exists key. unfold clearAllSettled. rewrite Hst.
  rewrite loadWeek_cleared. cbn [bind].
  rewrite (saveWeek_emptyWeek m zero _ _ eq_refl). cbn [bind selectedMonday hourlyWage].
  rewrite (saveWeek_emptyWeek m zero _ _ eq_refl). cbn [bind ret].
  eexists. split; [reflexivity|]. split; [exact Hpre|].
  split; [reflexivity|]. split; [reflexivity|]. split; [reflexivity|].
  intros k. cbn [storage]. rewrite lookup_insert.
  destruct (String.eqb_spec k key) as [->|Hk].
  { rewrite decide_True by reflexivity. reflexivity. }
  assert (Hk' : key <> k) by (intros E; apply Hk; symmetry; exact E).
  rewrite decide_False by exact Hk'.
  destruct (decide (hourlyWage (state w) = zero)) as [Hw|Hw].
  - rewrite lookup_insert_ne by exact Hk'. rewrite lookup_clearAll.
    destruct (String.eqb k WAGE_KEY); [rewrite orb_true_r|rewrite orb_false_r];
      reflexivity.
  - unfold saveWage. cbn [hourlyWage]. rewrite lookup_insert.
    destruct (String.eqb_spec k WAGE_KEY) as [->|Hkw].
    + rewrite decide_True by reflexivity. reflexivity.
    + rewrite decide_False by congruence.
      rewrite lookup_insert_ne by exact Hk'. rewrite lookup_clearAll.
      destruct (String.eqb_spec k WAGE_KEY) as [->|_]; [contradiction|].
      rewrite orb_false_r. reflexivity.
Qed.

(** C8, as stated, fails once the effects have run: the present week's
    key and the wage key are in the storage again. *)
Lemma clearAll_settled_counterexample :
  String.prefix TIMESHEET_PREFIX Cases.mondayKey = true
  /\ match clearAllSettled (host := Sample.host) Cases.busyWorld with
     | inr w2 =>
         storage w2 !! Cases.mondayKey <> None
         /\ storage w2 !! WAGE_KEY = Some (Doc (VNum zero))
         /\ storage w2 !! "timesheet-data-2024-05-27"%string = None
     | inl _ => False
     end.
Proof.
  split; [reflexivity|].
  vm_compute. repeat split. discriminate.
Qed.

Lemma updates_keep_inSync_witness :
  let week := [Cases.workDay; Cases.workDay] in
  Forall inSync week
  /\ Forall inSync (handleTimeChange (host := Sample.host) 0 0 FEndTime "18:30" week)
  /\ Forall inSync (addTimeEntry 1 week).
Proof.
  assert (Hw : Forall inSync [Cases.workDay; Cases.workDay]).
  { repeat constructor; vm_compute; reflexivity. }
  pose proof (updates_keep_inSync (host := Sample.host)
                [Cases.workDay; Cases.workDay] 0 0 FEndTime "18:30" Hw) as [H1 _].
  pose proof (updates_keep_inSync (host := Sample.host)
                [Cases.workDay; Cases.workDay] 1 0 FEndTime "18:30" Hw) as [_ [_ [H3 _]]].
  split; [exact Hw|]. split; [exact H1 | exact H3].
Defined.

(** * Further properties of the component *)

(** ** Weeks and their days *)

Section WeekDays.
Context {host : Host}.

Lemma setDate_getDate_add (t i : Z) :
  setDate t (getDate t + i) = ofLocal (localDay t + i) (localTime t).
Proof. unfold setDate, getDate. f_equal. lia. Qed.

Lemma mondayOf_same_week (d i : Z) :
  (d + 4) mod 7 = 1 -> 0 <= i < 7 -> mondayOf (d + i) = d.
Proof.
  intros Hd Hi. unfold mondayOf.
  destruct ((d + i + 4) mod 7 =? 0) eqn:E.
  - apply Z.eqb_eq in E. Z.div_mod_to_equations. lia.
  - apply Z.eqb_neq in E. Z.div_mod_to_equations. lia.
Qed.

Lemma mondayOf_near (d d' : Z) : mondayOf d = mondayOf d' -> Z.abs (d - d') < 7.
Proof.
  intros E. pose proof (mondayOf_range d). pose proof (mondayOf_range d'). lia.
Qed.

Lemma ofLocal_inj (d d' : Z) : ofLocal d 0 = ofLocal d' 0 -> d = d'.
Proof. unfold ofLocal, msPerDay. lia. Qed.

End WeekDays.

(** X1.  Two dates of the same local calendar day have the same Monday,
    and two dates that have the same Monday are fewer than seven local
    days apart. *)
Theorem getMonday_same_day {host : Host} (t1 t2 : Z) :
  (localDay t1 = localDay t2 -> getMonday (TimeValue t1) = getMonday (TimeValue t2))
  /\ (getMonday (TimeValue t1) = getMonday (TimeValue t2) ->
      Z.abs (localDay t1 - localDay t2) < 7).
Proof.
  rewrite !getMonday_value. split.
  - intros ->. reflexivity.
  - intros E. injection E as E. apply mondayOf_near, ofLocal_inj, E.
Qed.

Lemma getMonday_same_day_witness :
  getMonday (host := Sample.host) (TimeValue Sample.now)
  = getMonday (host := Sample.host) (TimeValue (Sample.now + 3600000))
  /\ Z.abs (localDay (host := Sample.host) Sample.now
            - localDay (host := Sample.host) (Sample.now + 3600000)) < 7.
Proof.
  pose proof (getMonday_same_day (host := Sample.host) Sample.now (Sample.now + 3600000))
    as [Hsame Hnear].
  assert (E : getMonday (host := Sample.host) (TimeValue Sample.now)
              = getMonday (host := Sample.host) (TimeValue (Sample.now + 3600000))).
  { apply Hsame. vm_compute. reflexivity. }
  split; [exact E | exact (Hnear E)].
Defined.

(** ** The week under user actions *)

Section Actions.
Context {host : Host}.

Lemma fold_directStep (es : list TimeEntry) (t : Qc) :
  fold_left directStep es (Num t) = Num (t + total (map directHours es))%Qc.
Proof.
  revert t; induction es as [|e es IH]; intros t; cbn [fold_left map].
  - unfold total. cbn [foldr]. f_equal; ring.
  - rewrite directStep_Num, IH.
    change (total (directHours e :: map directHours es))
      with (directHours e + total (map directHours es))%Qc.
    fold (directHours e). f_equal. ring.
Qed.

Lemma calculateDayHours_value (es : list TimeEntry) (mode : bool) :
  calculateDayHours es mode
  = Num (total (map (if mode then directHours else contribution) es)).
Proof.
  unfold calculateDayHours, zero. destruct mode.
  - rewrite fold_directStep. f_equal. ring.
  - rewrite fold_rangeStep. f_equal. ring.
Qed.

Lemma length_mapi {A B : Type} (f : A -> nat -> B) (l : list A) :
  List.length (mapi f l) = List.length l.
Proof. unfold mapi. apply length_imap. Qed.

End Actions.

Section ActionLemmas.
Context {host : Host}.

Lemma act_mapi (a : Action) (week : list DayEntry) :
  act a week
  = mapi (fun day i => if Nat.eqb i (dayIndexOf a) then onDay a day else day) week.
Proof. destruct a; reflexivity. Qed.

Lemma lookup_act (a : Action) (week : list DayEntry) (i : nat) :
  act a week !! i
  = (fun day => if Nat.eqb i (dayIndexOf a) then onDay a day else day) <$> week !! i.
Proof. rewrite act_mapi. apply lookup_mapi. Qed.

Lemma date_onDay (a : Action) (d : DayEntry) : date (onDay a d) = date d.
Proof. destruct a; reflexivity. Qed.

Lemma onDay_inSync (a : Action) (d : DayEntry) : inSync d -> inSync (onDay a d).
Proof.
  intros Hd. destruct a; try reflexivity.
  unfold inSync in *. cbn [onDay entries totalHours useDirectHours].
  rewrite calculateDayHours_blank. exact Hd.
Qed.

Lemma act_inSync (a : Action) (week : list DayEntry) :
  Forall inSync week -> Forall inSync (act a week).
Proof.
  intros H. rewrite act_mapi. apply (Forall_mapi inSync); [|exact H].
  intros d i Hd. destruct (Nat.eqb i (dayIndexOf a)); [apply onDay_inSync|]; exact Hd.
Qed.

Lemma act_dates (a : Action) (week : list DayEntry) :
  map date (act a week) = map date week.
Proof.
  apply list_eq. intros i. rewrite !list_lookup_fmap, lookup_act.
  destruct (week !! i) as [d|]; [|reflexivity]. cbn.
  destruct (Nat.eqb i (dayIndexOf a)); [rewrite date_onDay|]; reflexivity.
Qed.

Lemma act_length (a : Action) (week : list DayEntry) :
  List.length (act a week) = List.length week.
Proof. rewrite act_mapi. apply length_mapi. Qed.

End ActionLemmas.

(** The week that [initializeNewWeek] builds, which is also the one
    [clearAll] builds, has seven days, each with a total equal to the
    total of its entries under its mode, and a weekly total of 0. *)
Lemma newWeek_fresh {host : Host} (monday : Date) :
  List.length (newWeek monday) = 7%nat
  /\ newWeek monday = emptyWeek monday
  /\ Forall inSync (newWeek monday)
  /\ totalWeekHours (newWeek monday) = zero.
Proof.
  split; [reflexivity|]. split; [reflexivity|]. split.
  - unfold newWeek. apply Forall_map, Forall_forall. intros i _. reflexivity.
  - vm_compute. reflexivity.
Qed.

(** X3.  An edit, a toggle, an added or a deleted entry leaves the
    number of days and their dates as they were and touches no day but
    the one at its index; with an index past the last day it changes
    nothing. *)
Theorem act_only_its_day {host : Host} (a : Action) (week : list DayEntry) :
  List.length (act a week) = List.length week
  /\ map date (act a week) = map date week
  /\ (forall j, j <> dayIndexOf a -> act a week !! j = week !! j)
  /\ (List.length week <= dayIndexOf a -> act a week = week)%nat.
Proof.
  split; [apply act_length|]. split; [apply act_dates|]. split.
  - intros j Hj. rewrite lookup_act. apply Nat.eqb_neq in Hj. rewrite Hj.
    destruct (week !! j); reflexivity.
  - intros Hlen. apply list_eq. intros j. rewrite lookup_act.
    destruct (week !! j) as [d|] eqn:Hd; [|reflexivity]. cbn.
    apply lookup_lt_Some in Hd.
    destruct (Nat.eqb_spec j (dayIndexOf a)) as [->|_]; [lia|reflexivity].
Qed.

Lemma act_only_its_day_witness :
  act (host := Sample.host) (AddEntry 0) [Cases.workDay; Cases.workDay] !! 1%nat
  = Some Cases.workDay
  /\ act (host := Sample.host) (Toggle 2) [Cases.workDay; Cases.workDay]
     = [Cases.workDay; Cases.workDay].
Proof.
  pose proof (act_only_its_day (host := Sample.host) (AddEntry 0)
                [Cases.workDay; Cases.workDay]) as [_ [_ [H1 _]]].
  pose proof (act_only_its_day (host := Sample.host) (Toggle 2)
                [Cases.workDay; Cases.workDay]) as [_ [_ [_ H2]]].
  split; [apply (H1 1%nat); discriminate | apply H2; simpl; lia].
Defined.

(** X4.  From a new week, whatever edits, toggles, added and deleted
    entries follow, the week keeps its seven days and their dates, and
    every day's total is the total of its entries under its mode. *)
Theorem run_keeps_week {host : Host} (actions : list Action) (monday : Date) :
  List.length (run actions (newWeek monday)) = 7%nat
  /\ map date (run actions (newWeek monday)) = map date (newWeek monday)
  /\ Forall inSync (run actions (newWeek monday)).
Proof.
  assert (H : forall week,
             List.length (run actions week) = List.length week
             /\ map date (run actions week) = map date week
             /\ (Forall inSync week -> Forall inSync (run actions week))).
  { unfold run. induction actions as [|a actions IH]; intros week; cbn [fold_left].
    - repeat split. auto.
    - destruct (IH (act a week)) as [Hl [Hd Hs]].
      rewrite Hl, Hd, act_length, act_dates. repeat split.
      intros Hw. apply Hs, act_inSync, Hw. }
  destruct (H (newWeek monday)) as [Hl [Hd Hs]].
  assert (Hfresh : Forall inSync (newWeek monday)).
  { unfold newWeek. apply Forall_map, Forall_forall. intros i _. reflexivity. }
  split; [rewrite Hl; reflexivity|]. split; [exact Hd|]. auto.
Qed.

(** ** Entries of a day *)

Section Entries.

Lemma filteri_from_delete {A : Type} (j k : nat) (l : list A) :
  filteri_from (fun _ eIndex => negb (Nat.eqb eIndex j)) k l
  = if decide (j < k)%nat then l else delete (j - k)%nat l.
Proof.
  revert k; induction l as [|x l IH]; intros k; cbn [filteri_from].
  - destruct (decide (j < k)%nat); reflexivity.
  - rewrite IH. destruct (Nat.eqb_spec k j) as [->|Hne]; cbn [negb].
    + rewrite decide_True by lia. rewrite decide_False by lia.
      rewrite Nat.sub_diag. reflexivity.
    + destruct (decide (j < k)%nat) as [Hlt|Hge].
      * rewrite decide_True by lia. reflexivity.
      * rewrite decide_False by lia.
        replace (j - k)%nat with (S (j - S k)) by lia. reflexivity.
Qed.

Lemma filteri_delete {A : Type} (j : nat) (l : list A) :
  filteri (fun _ eIndex => negb (Nat.eqb eIndex j)) l = delete j l.
Proof.
  unfold filteri. rewrite filteri_from_delete, decide_False by lia.
  rewrite Nat.sub_0_r. reflexivity.
Qed.

Lemma delete_past_end {A : Type} (j : nat) (l : list A) :
  (List.length l <= j)%nat -> delete j l = l.
Proof.
  revert j; induction l as [|x l IH]; intros j Hj; [destruct j; reflexivity|].
  destruct j as [|j]; cbn in Hj; [lia|]. cbn. f_equal. apply IH. lia.
Qed.

Lemma delete_last_appended {A : Type} (x : A) (l : list A) :
  delete (List.length l) (l ++ [x]) = l.
Proof. induction l as [|y l IH]; [reflexivity|]. cbn. f_equal. exact IH. Qed.

Lemma map_mapi_same {A B : Type} (g : A -> B) (f : A -> nat -> A) (l : list A) :
  (forall x i, g (f x i) = g x) -> map g (mapi f l) = map g l.
Proof.
  intros Hf. apply list_eq. intros i. rewrite !list_lookup_fmap, lookup_mapi.
  destruct (l !! i); [|reflexivity]. cbn. rewrite Hf. reflexivity.
Qed.

End Entries.

(** X5.  Deleting entry [j] of a day removes exactly that entry and
    keeps the others in order, with the total recomputed from them; an
    index past the last entry removes nothing, an index in range
    shortens the list by one, and an index other than 0 keeps the first
    entry, so the list does not become empty. *)
Theorem deleteTimeEntry_removes_one (i j : nat) (week : list DayEntry) (d : DayEntry)
    (H : week !! i = Some d) :
  deleteTimeEntry i j week !! i
  = Some (mkDay (date d) (delete j (entries d))
                (calculateDayHours (delete j (entries d)) (useDirectHours d))
                (useDirectHours d))
  /\ ((List.length (entries d) <= j)%nat -> delete j (entries d) = entries d)
  /\ ((j < List.length (entries d))%nat ->
      S (List.length (delete j (entries d))) = List.length (entries d))
  /\ ((0 < j)%nat -> head (delete j (entries d)) = head (entries d)).
Proof.
  split; [|split; [|split]].
  - unfold deleteTimeEntry. rewrite lookup_mapi, H. cbn.
    rewrite Nat.eqb_refl, filteri_delete. reflexivity.
  - apply delete_past_end.
  - intros Hj. rewrite length_delete.
    + lia.
    + apply lookup_lt_is_Some_2, Hj.
  - intros Hj. destruct j as [|j]; [lia|]. destruct (entries d); reflexivity.
Qed.

Lemma deleteTimeEntry_removes_one_witness :
  let d := mkDay (TimeValue 0) [blankEntry; mkEntry (Some "09:00"%string) (Some "10:00"%string) None]
                 (Num (of_Z 1)) false in
  deleteTimeEntry 0 1 [d] !! 0%nat
  = Some (mkDay (TimeValue 0) [blankEntry] (calculateDayHours [blankEntry] false) false)
  /\ head (delete 1%nat (entries d)) = head (entries d).
Proof.
  intros d.
  pose proof (deleteTimeEntry_removes_one 0 1 [d] d eq_refl) as [H1 [_ [_ H4]]].
  split; [exact H1 | apply H4; lia].
Defined.

(** X6.  On a day whose total is in step with its entries, adding an
    entry and then deleting that last entry gives the week back. *)
Theorem add_then_delete (i : nat) (week : list DayEntry) (d : DayEntry)
    (H : week !! i = Some d) (Hs : inSync d) :
  deleteTimeEntry i (List.length (entries d)) (addTimeEntry i week) = week.
Proof.
  apply list_eq. intros k. unfold deleteTimeEntry, addTimeEntry.
  rewrite !lookup_mapi. destruct (week !! k) as [d'|] eqn:Hk; [|reflexivity].
  unfold fmap, option_fmap, option_map. cbv beta iota.
  destruct (Nat.eqb_spec k i) as [->|_]; [|reflexivity].
  rewrite H in Hk. injection Hk as <-.
  cbn [entries date totalHours useDirectHours].
  rewrite filteri_delete, delete_last_appended. f_equal.
  destruct d as [dt es tot mode]. unfold inSync in Hs.
  cbn [entries date totalHours useDirectHours] in *. rewrite <- Hs.
  reflexivity.
Qed.

Lemma add_then_delete_witness :
  deleteTimeEntry 0 1 (addTimeEntry 0 [Cases.workDay]) = [Cases.workDay].
Proof.
  apply (add_then_delete 0 [Cases.workDay] Cases.workDay eq_refl).
  vm_compute. reflexivity.
Defined.

Section EditOtherMode.
Context {host : Host}.

Lemma contribution_editHours (value : string) (e : TimeEntry) :
  contribution (editEntry FHours value e) = contribution e.
Proof. reflexivity. Qed.

Lemma directHours_editTime (field : Field) (value : string) (e : TimeEntry) :
  field <> FHours -> directHours (editEntry field value e) = directHours e.
Proof. destruct field; [reflexivity | reflexivity | contradiction]. Qed.

End EditOtherMode.

(** X7.  The two ways of entering time do not disturb each other: the
    time-range total of a list of entries is the same after the hours
    of one entry are edited, and the direct-hours total is the same
    after a start or an end time is edited. *)
Theorem edit_leaves_other_mode {host : Host} (j : nat) (field : Field) (value : string)
    (es : list TimeEntry) :
  let edited := mapi (fun entry eIndex =>
                  if Nat.eqb eIndex j then editEntry field value entry else entry) es in
  (field = FHours -> calculateDayHours edited false = calculateDayHours es false)
  /\ (field <> FHours -> calculateDayHours edited true = calculateDayHours es true).
Proof.
  intros edited. unfold edited. rewrite !calculateDayHours_value. split; intros Hf.
  - subst field. f_equal. f_equal. apply map_mapi_same.
    intros e i. destruct (Nat.eqb i j); reflexivity.
  - f_equal. f_equal. apply map_mapi_same.
    intros e i. destruct (Nat.eqb i j); [apply directHours_editTime, Hf|reflexivity].
Qed.

Lemma edit_leaves_other_mode_witness :
  let es := [mkEntry (Some "09:00"%string) (Some "17:00"%string) (Some (Num (of_Z 3)))] in
  calculateDayHours
    (mapi (fun entry eIndex =>
       if Nat.eqb eIndex 0 then editEntry (host := Sample.host) FHours "7.5" entry else entry) es)
    false
  = calculateDayHours es false
  /\ calculateDayHours
       (mapi (fun entry eIndex =>
          if Nat.eqb eIndex 0 then editEntry (host := Sample.host) FEndTime "18:00" entry
          else entry) es)
       true
     = calculateDayHours es true.
Proof.
  intros es.
  pose proof (edit_leaves_other_mode (host := Sample.host) 0 FHours "7.5" es) as [H1 _].
  pose proof (edit_leaves_other_mode (host := Sample.host) 0 FEndTime "18:00" es) as [_ H2].
  split; [apply H1; reflexivity | apply H2; discriminate].
Defined.

(** ** The weekly total *)

Section WeeklyTotal.

Lemma fold_week_NaN (week : list DayEntry) :
  fold_left (fun total day => add total (totalHours day)) week NaN = NaN.
Proof. induction week as [|d week IH]; [reflexivity|exact IH]. Qed.

Lemma fold_week (week : list DayEntry) (t : Qc) :
  fold_left (fun total day => add total (totalHours day)) week (Num t)
  = if forallb (fun d => negb (isNaN (totalHours d))) week
    then Num (t + total (map (fun d => numVal (totalHours d)) week))%Qc
    else NaN.
Proof.
  revert t; induction week as [|d week IH]; intros t; cbn [fold_left forallb map].
  - unfold total. cbn [foldr]. f_equal. ring.
  - destruct (totalHours d) as [|q]; cbn [add isNaN negb andb numVal].
    + apply fold_week_NaN.
    + rewrite IH. destruct (forallb _ week); [|reflexivity].
      change (total (q :: ?l)) with (q + total l)%Qc. f_equal. ring.
Qed.

End WeeklyTotal.


(** ** Saving and loading a week *)

Section SaveLoad.
Context {host : Host}.

Lemma toJSON_ofEntry_same (e : TimeEntry) :
  hours e <> Some NaN -> toJSON (ofEntry e) = Some (ofEntry e).
Proof.
  destruct e as [[s|] [t|] [[|q]|]]; intros Hh; try reflexivity; contradiction.
Qed.

Lemma toJSON_entries_same (es : list TimeEntry) :
  Forall (fun e => hours e <> Some NaN) es ->
  map (fun x => default VNull (toJSON x)) (map ofEntry es) = map ofEntry es.
Proof.
  induction 1 as [|e es He _ IH]; [reflexivity|].
  cbn [map]. rewrite (toJSON_ofEntry_same e He), IH. reflexivity.
Qed.

Lemma sanitizeDay_saved (d : DayEntry) (td : Z) :
  date d = TimeValue td -> parseDate (toISOString td) = TimeValue td ->
  isNaN (totalHours d) = false ->
  Forall (fun e => hours e <> Some NaN) (entries d) ->
  sanitizeDay (default VNull (toJSON (ofDay d))) = inr (ofDay d).
Proof.
  destruct d as [dt es tot mode]. cbn [date totalHours entries].
  intros -> Hp Htot Hes. destruct tot as [|q]; [discriminate|].
  unfold ofDay. cbn [date totalHours entries useDirectHours toJSON default from_option id].
  rewrite (toJSON_entries_same es Hes).
  unfold sanitizeDay. cbn. rewrite Hp. reflexivity.
Qed.

Lemma sanitize_saved_week (week : list DayEntry) :
  Forall (fun d => exists td, date d = TimeValue td
                              /\ parseDate (toISOString td) = TimeValue td) week ->
  Forall (fun d => isNaN (totalHours d) = false) week ->
  Forall (fun d => Forall (fun e => hours e <> Some NaN) (entries d)) week ->
  mapM sanitizeDay (map (fun x => default VNull (toJSON x)) (ofWeek week))
  = inr (ofWeek week).
Proof.
  induction week as [|d week IH]; intros Hd Ht He; [reflexivity|].
  inversion Hd as [|? ? [td [Hdt Hp]] Hd']; subst.
  inversion Ht as [|? ? Ht1 Ht']; subst. inversion He as [|? ? He1 He']; subst.
  unfold ofWeek in *. cbn [map mapM].
  rewrite (sanitizeDay_saved d td Hdt Hp Ht1 He1). cbn [bind].
  rewrite (IH Hd' Ht' He'). reflexivity.
Qed.

End SaveLoad.

(** X10.  A week that is saved and then loaded for the same Monday
    comes back as it was: the same days with the same dates, entries,
    totals and modes, provided the week has a day, the date parser reads
    each day's date back from its ISO string, and every total and every
    hours field that is present is a finite number (NaN, like an
    infinity, is stored as [null]). *)
Theorem save_then_load {host : Host} (t : Z) (week : list DayEntry) (wage : num)
    (store : gmap string content)
    (Hne : week <> [])
    (Hdates : Forall (fun d => exists td, date d = TimeValue td
                                 /\ parseDate (toISOString td) = TimeValue td) week)
    (Htot : Forall (fun d => isFinite (totalHours d) = true) week)
    (Hhours : Forall (fun d => Forall hoursFinite (entries d)) week) :
  exists store',
    saveWeek (mkState (TimeValue t) (ofWeek week) wage) store = inr store'
    /\ loadWeek (mkState (TimeValue t) (ofWeek week) wage) store' = inr (ofWeek week).
Proof.
  destruct week as [|d week]; [contradiction|].
  eexists. split; [reflexivity|].
  unfold loadWeek. cbn [selectedMonday getLocalStorageKey bind ret].
  rewrite lookup_insert_eq.
  unfold JSON_stringify. cbn [weekData toJSON nonEmpty JSON_parse bind ret arrayMap].
  rewrite (sanitize_saved_week (d :: week) Hdates); [reflexivity| |].
  - eapply Forall_impl; [exact Htot|]. intros x. unfold isFinite.
    destruct (isNaN (totalHours x)); [intros H; discriminate H|reflexivity].
  - eapply Forall_impl; [exact Hhours|]. intros x Hx.
    eapply Forall_impl; [exact Hx|]. intros e. unfold hoursFinite.
    destruct (hours e) as [[|q]|]; [intros H; discriminate H| |]; intros _; discriminate.
Qed.

Lemma save_then_load_witness :
  exists store',
    saveWeek (host := Sample.host)
      (mkState (TimeValue Sample.monday) (ofWeek [Cases.workDay]) zero) ∅ = inr store'
    /\ loadWeek (host := Sample.host)
         (mkState (TimeValue Sample.monday) (ofWeek [Cases.workDay]) zero) store'
       = inr (ofWeek [Cases.workDay]).
Proof.
  apply (save_then_load (host := Sample.host) Sample.monday [Cases.workDay] zero ∅).
  - discriminate.
  - repeat constructor. exists Sample.monday. split; [reflexivity|vm_compute; reflexivity].
  - repeat constructor.
  - repeat constructor.
Defined.

Section LoadEdges.
Context {host : Host}.

Lemma mapM_length {A B : Type} (f : A -> M B) (l : list A) (r : list B) :
  mapM f l = inr r -> List.length r = List.length l.
Proof.
  revert r; induction l as [|x l IH]; intros r; cbn [mapM].
  - intros E. injection E as <-. reflexivity.
  - destruct (f x) as [e|y]; [discriminate|]. cbn [bind].
    destruct (mapM f l) as [e|ys]; [discriminate|]. cbn [bind ret].
    intros E. injection E as <-. cbn. f_equal. apply IH. reflexivity.
Qed.

Lemma mapM_Forall2 {A B : Type} (f : A -> M B) (l : list A) (r : list B) :
  mapM f l = inr r -> Forall2 (fun x y => f x = inr y) l r.
Proof.
  revert r; induction l as [|x l IH]; intros r; cbn [mapM].
  - intros E. injection E as <-. constructor.
  - destruct (f x) as [e|y] eqn:Hx; [discriminate|]. cbn [bind].
    destruct (mapM f l) as [e|ys]; [discriminate|]. cbn [bind ret].
    intros E. injection E as <-. constructor; [exact Hx|]. apply IH. reflexivity.
Qed.

Lemma mapM_Forall {A B : Type} (f : A -> M B) (P : B -> Prop) (l : list A) (r : list B) :
  (forall x y, f x = inr y -> P y) -> mapM f l = inr r -> Forall P r.
Proof.
  intros Hf. revert r; induction l as [|x l IH]; intros r; cbn [mapM].
  - intros E. injection E as <-. constructor.
  - destruct (f x) as [e|y] eqn:Hx; [discriminate|]. cbn [bind].
    destruct (mapM f l) as [e|ys]; [discriminate|]. cbn [bind ret].
    intros E. injection E as <-. constructor; [exact (Hf x y Hx)|]. apply IH. reflexivity.
Qed.

Lemma nullish_coalesce (a b : value) : nullish b = false -> nullish (coalesce a b) = false.
Proof. unfold coalesce. intros Hb. destruct (nullish a) eqn:Ha; assumption. Qed.

Lemma sanitizeDay_sanitized (day l : value) :
  sanitizeDay day = inr l -> daySanitized l = true.
Proof.
  unfold sanitizeDay. destruct (get day "date") as [e|d]; [discriminate|].
  cbn [bind]. destruct (newDate d) as [e|dt]; [discriminate|].
  cbn [bind]. destruct (get day "entries") as [e|en]; [discriminate|].
  cbn [bind]. destruct (get day "totalHours") as [e|tt]; [discriminate|].
  cbn [bind]. destruct (parseFloat tt) as [e|total]; [discriminate|].
  cbn [bind]. destruct (get day "useDirectHours") as [e|u]; [discriminate|].
  cbn [bind ret]. intros E. injection E as <-.
  unfold daySanitized. cbn [propOf]. rewrite !lookupProp_setProp.
  cbn [String.eqb Ascii.eqb Bool.eqb andb coalesce nullish].
  rewrite !nullish_coalesce by reflexivity. reflexivity.
Qed.

Lemma weekKey_not_wage (t : Z) :
  TIMESHEET_PREFIX +:+ List.nth 0 (split "T"%char (toISOString t)) ""%string <> WAGE_KEY.
Proof.
  intros E. apply String.eqb_eq in E. discriminate E.
Qed.

End LoadEdges.

(** X11.  Loading a week never throws when the selected Monday is a
    valid date.  When the stored text is a JSON array all of whose days
    can be read, the loaded week is that array day by day, each day the
    sanitized stored day: it has a date object, a number as total, and
    entries and a mode that are neither [null] nor [undefined].  In
    every other case (no slot, empty text, text that is not JSON, JSON
    that is not an array, a day that cannot be read) the loaded week is
    the fresh one.  With the Invalid Date as Monday it throws. *)
Theorem loadWeek_total {host : Host} (t : Z) (week : list value) (wage : num)
    (store : gmap string content) :
  match store !! (TIMESHEET_PREFIX +:+ List.nth 0 (split "T"%char (toISOString t)) ""%string) with
  | Some (Doc (VArr days)) =>
      match mapM sanitizeDay days with
      | inr loaded =>
          loadWeek (mkState (TimeValue t) week wage) store = inr loaded
          /\ Forall2 (fun day l => sanitizeDay day = inr l) days loaded
          /\ Forall (fun l => daySanitized l = true) loaded
      | inl _ =>
          loadWeek (mkState (TimeValue t) week wage) store
          = inr (initializeNewWeek (TimeValue t))
      end
  | _ =>
      loadWeek (mkState (TimeValue t) week wage) store
      = inr (initializeNewWeek (TimeValue t))
  end
  /\ loadWeek (mkState InvalidDate week wage) store = inl RangeError.
Proof.
  split; [|reflexivity].
  unfold loadWeek. cbn [selectedMonday getLocalStorageKey bind ret].
  destruct (store !! _) as [[s|v]|] eqn:Hk; [| |reflexivity].
  - destruct (nonEmpty (Raw s)); reflexivity.
  - cbn [nonEmpty JSON_parse bind ret].
    destruct v as [| | | | | | |days|props]; try reflexivity.
    cbn [arrayMap]. destruct (mapM sanitizeDay days) as [e|loaded] eqn:Hm;
      [reflexivity|].
    split; [reflexivity|]. split.
    + apply (mapM_Forall2 _ _ _ Hm).
    + apply (mapM_Forall sanitizeDay _ _ _ sanitizeDay_sanitized Hm).
Qed.

(** X12.  A stored empty array is loaded as a week without days, not
    as the fresh week, and a week without days is never written back:
    saving it leaves the storage as it is. *)
Theorem empty_week_sticks {host : Host} (t : Z) (week : list value) (wage : num)
    (store : gmap string content)
    (H : store !! (TIMESHEET_PREFIX +:+ List.nth 0 (split "T"%char (toISOString t)) ""%string)
         = Some (Doc (VArr []))) :
  loadWeek (mkState (TimeValue t) week wage) store = inr []
  /\ saveWeek (mkState (TimeValue t) [] wage) store = inr store.
Proof.
  split; [|reflexivity].
  unfold loadWeek. cbn [selectedMonday getLocalStorageKey bind ret].
  rewrite H. reflexivity.
Qed.

Lemma empty_week_sticks_witness :
  loadWeek (host := Sample.host) Cases.stateAt {[ Cases.mondayKey := Doc (VArr []) ]}
  = inr [].
Proof.
  apply (empty_week_sticks (host := Sample.host) Sample.monday [] zero
           {[ Cases.mondayKey := Doc (VArr []) ]}).
  vm_compute. reflexivity.
Defined.

(** X13.  Saving a week writes only the slot of the selected Monday and
    saving the wage writes only the wage slot, and the two never meet:
    what a week load returns is the same before and after the wage is
    saved, and what the wage load returns is the same before and after a
    week is saved. *)
Theorem week_and_wage_slots {host : Host} (s s' : State) (t : Z) (week : list value)
    (wage x : num) (store : gmap string content) :
  loadWeek s' (saveWage s store) = loadWeek s' store
  /\ (forall k, k <> WAGE_KEY -> saveWage s store !! k = store !! k)
  /\ exists store',
       saveWeek (mkState (TimeValue t) week wage) store = inr store'
       /\ loadWage x store' = loadWage x store
       /\ forall k,
            k <> TIMESHEET_PREFIX +:+ List.nth 0 (split "T"%char (toISOString t)) ""%string ->
            store' !! k = store !! k.
Proof.
  split; [|split].
  - unfold loadWeek, saveWage. destruct (selectedMonday s') as [|t'];
      cbn [getLocalStorageKey bind ret throw]; [reflexivity|].
    rewrite lookup_insert_ne; [reflexivity|].
    intros E. symmetry in E. exact (weekKey_not_wage t' E).
  - intros k Hk. unfold saveWage. apply lookup_insert_ne. congruence.
  - unfold saveWeek. cbn [weekData selectedMonday getLocalStorageKey bind ret].
    destruct week as [|d week].
    + exists store. repeat split.
    + eexists. split; [reflexivity|]. split.
      * unfold loadWage. rewrite lookup_insert_ne; [reflexivity|apply weekKey_not_wage].
      * intros k Hk. apply lookup_insert_ne. congruence.
Qed.

Lemma week_and_wage_slots_witness :
  saveWage Cases.stateAt ∅ !! Cases.mondayKey = None.
Proof.
  pose proof (week_and_wage_slots (host := Sample.host) Cases.stateAt Cases.stateAt
                0 [] zero zero ∅) as [_ [H _]].
  rewrite (H Cases.mondayKey); [reflexivity|discriminate].
Defined.

(** ** Clearing, and the wage *)

(** X14.  Clearing twice is clearing once: [clearAll] run on the world
    it left gives that world again. *)
Theorem clearAll_idempotent {host : Host} (w : World) :
  clearAll (clearAll w) = clearAll w.
Proof.
  assert (Hst : storage (clearAll (clearAll w)) = storage (clearAll w)).
  { apply map_eq. intros k. rewrite !lookup_clearAll.
    destruct (String.prefix TIMESHEET_PREFIX k || String.eqb k WAGE_KEY)%bool;
      reflexivity. }
  unfold clearAll at 1. unfold clearAll at 1 in Hst. cbn [storage] in Hst.
  rewrite Hst. reflexivity.
Qed.

(** X15.  After [clearAll] nothing stored survives for any week or for
    the wage: loading any Monday gives the fresh week, and loading the
    wage leaves the wage as it is. *)
Theorem clearAll_forgets {host : Host} (w : World) (t : Z) (week : list value)
    (wage x : num) :
  loadWeek (mkState (TimeValue t) week wage) (storage (clearAll w))
  = inr (initializeNewWeek (TimeValue t))
  /\ loadWage x (storage (clearAll w)) = x.
Proof.
  split; [apply loadWeek_cleared|].
  unfold loadWage. rewrite lookup_clearAll. reflexivity.
Qed.

(** X16.  A wage that is a number, saved and then loaded, comes back
    the same, whatever the wage in memory was; this holds for the wage
    0 too, whose text is not empty. *)
Theorem wage_saved_then_loaded {host : Host} (s : State) (x : num)
    (store : gmap string content) (H : isNaN (hourlyWage s) = false) :
  loadWage x (saveWage s store) = hourlyWage s.
Proof.
  unfold loadWage, saveWage. rewrite lookup_insert_eq.
  destruct (hourlyWage s) as [|q]; [discriminate|]. reflexivity.
Qed.

Lemma wage_saved_then_loaded_witness :
  loadWage (host := Sample.host) NaN (saveWage (mkState InvalidDate [] zero) ∅) = zero.
Proof.
  apply (wage_saved_then_loaded (host := Sample.host) (mkState InvalidDate [] zero) NaN ∅).
  reflexivity.
Defined.

(** X17.  The wage input never puts a negative wage or NaN in the
    state: after [handleWageChange] a wage that was a number not below 0
    still is one.  An empty input sets the wage to 0, an input that
    reads as NaN or as a negative number changes nothing, and the week
    and the selected Monday are never touched. *)
Theorem handleWageChange_keeps_valid {host : Host} (value : string) (s : State)
    (H : validWage (hourlyWage s)) :
  validWage (hourlyWage (handleWageChange value s))
  /\ selectedMonday (handleWageChange value s) = selectedMonday s
  /\ weekData (handleWageChange value s) = weekData s
  /\ hourlyWage (handleWageChange ""%string s) = zero
  /\ (value <> ""%string -> wageAccepted (parseFloatStr value) = false ->
      handleWageChange value s = s).
Proof.
  unfold handleWageChange.
  split; [|split; [|split; [|split]]].
  - destruct (wageAccepted _) eqn:Ha; [|exact H]. cbn [hourlyWage].
    destruct (if String.eqb value "" then zero else parseFloatStr value) as [|q];
      [discriminate|].
    cbn [wageAccepted] in Ha. apply bool_decide_eq_true in Ha. exact Ha.
  - destruct (wageAccepted _); reflexivity.
  - destruct (wageAccepted _); reflexivity.
  - reflexivity.
  - intros Hv Ha. apply String.eqb_neq in Hv. rewrite Hv, Ha. reflexivity.
Qed.

Lemma handleWageChange_keeps_valid_witness :
  validWage (hourlyWage (handleWageChange (host := Sample.host) "-3"
                           (mkState InvalidDate [] (Num (of_Z 20)))))
  /\ handleWageChange (host := Sample.host) "-3" (mkState InvalidDate [] (Num (of_Z 20)))
     = mkState InvalidDate [] (Num (of_Z 20)).
Proof.
  assert (Hv : validWage (Num (of_Z 20))) by (vm_compute; discriminate).
  pose proof (handleWageChange_keeps_valid (host := Sample.host) "-3"
                (mkState InvalidDate [] (Num (of_Z 20))) Hv) as [H1 [_ [_ [_ H5]]]].
  split; [exact H1|]. apply H5; [discriminate | vm_compute; reflexivity].
Defined.

(** ** More on the import *)

Section ImportMore.
Context {host : Host}.

Lemma importEntry_complete (entry v : value) :
  importEntry entry = inr v -> entryComplete v = true.
Proof.
  unfold importEntry. destruct (get entry "startTime") as [e|s]; [discriminate|].
  cbn [bind]. destruct (get entry "endTime") as [e|t]; [discriminate|].
  cbn [bind]. destruct (get entry "hours") as [e|h]; [discriminate|].
  cbn [bind ret]. intros E. injection E as <-.
  unfold entryComplete, coalesce. cbn.
  destruct s, t, h; reflexivity.
Qed.

Lemma importDay_complete (day v : value) :
  importDay day = inr v -> dayComplete v = true.
Proof.
  unfold importDay. destruct (get day "date") as [e|d]; [discriminate|].
  cbn [bind]. destruct (newDate d) as [e|dt]; [discriminate|].
  cbn [bind]. destruct (get day "entries") as [e|en]; [discriminate|].
  cbn [bind]. destruct (arrayMap en importEntry) as [e|es] eqn:Hes; [discriminate|].
  cbn [bind ret]. intros E. injection E as <-.
  unfold dayComplete. cbn [propOf]. rewrite !lookupProp_setProp.
  cbn [String.eqb Ascii.eqb Bool.eqb andb].
  apply forallb_forall. intros x Hx.
  destruct en; try discriminate. cbn [arrayMap] in Hes.
  pose proof (mapM_Forall importEntry (fun y => entryComplete y = true) _ _
                importEntry_complete Hes) as Hall.
  rewrite Forall_forall in Hall. apply Hall, list_elem_of_In, Hx.
Qed.

End ImportMore.

(** X18.  Whatever the file held, every day that the import hands on
    has a date object and an array of entries, and every entry has a
    start, an end and hours that are neither [null] nor [undefined]. *)
Theorem import_days_complete {host : Host} (c : content) (monday : Date)
    (days : list value) (H : readImport c = inr (monday, days)) :
  Forall (fun day => dayComplete day = true) days.
Proof.
  unfold readImport in H.
  destruct (JSON_parse c) as [e|data]; [discriminate|]. cbn [bind] in H.
  destruct (get data "selectedMonday") as [e|sm]; [discriminate|]. cbn [bind] in H.
  destruct (truthy sm); cbn [negb] in H; [|discriminate].
  destruct (get data "weekData") as [e|wd]; [discriminate|]. cbn [bind] in H.
  destruct (isArray wd) eqn:Hwd; cbn [negb bind ret] in H; [|discriminate].
  destruct wd; try discriminate.
  destruct (newDate sm) as [e|m]; [discriminate|]. cbn [bind arrayMap] in H.
  destruct (mapM importDay items) as [e|r] eqn:Hm; [discriminate|].
  cbn [bind ret] in H. injection H as _ <-.
  exact (mapM_Forall importDay _ _ _ importDay_complete Hm).
Qed.

Lemma import_days_complete_witness :
  exists monday days,
    readImport (host := Sample.host) Cases.oneDay = inr (monday, days)
    /\ Forall (fun day => dayComplete day = true) days.
Proof.
  eexists _, _. split; [vm_compute; reflexivity|].
  eapply (import_days_complete (host := Sample.host) Cases.oneDay).
  vm_compute. reflexivity.
Defined.

(** X19.  Importing an accepted file a second time changes nothing
    more: the world after two imports of the same file is the world
    after one. *)
Theorem import_twice {host : Host} (c : content) (w : World)
    (H : snd (importTry c w) = None) :
  handleFileSelect (Some c) (handleFileSelect (Some c) w) = handleFileSelect (Some c) w.
Proof.
  unfold handleFileSelect, importTry in *.
  destruct (readImport c) as [e|[m days]]; [discriminate|].
  cbn [state hourlyWage storage alerts] in *.
  destruct (getLocalStorageKey m) as [e|key]; [discriminate|].
  cbn [state hourlyWage storage alerts]. rewrite insert_insert_eq. reflexivity.
Qed.

Lemma import_twice_witness :
  handleFileSelect (host := Sample.host) (Some Cases.oneDay)
    (handleFileSelect (host := Sample.host) (Some Cases.oneDay) Cases.world0)
  = handleFileSelect (host := Sample.host) (Some Cases.oneDay) Cases.world0.
Proof.
  apply (import_twice (host := Sample.host) Cases.oneDay Cases.world0).
  vm_compute. reflexivity.
Defined.

(** X20.  An import, accepted or not, never changes the hourly wage and
    never touches a storage slot whose key lacks the week prefix, the
    wage slot among them; alerts are only added. *)
Theorem import_leaves_wage {host : Host} (file : option content) (w : World) :
  hourlyWage (state (handleFileSelect file w)) = hourlyWage (state w)
  /\ (forall k, String.prefix TIMESHEET_PREFIX k = false ->
        storage (handleFileSelect file w) !! k = storage w !! k)
  /\ storage (handleFileSelect file w) !! WAGE_KEY = storage w !! WAGE_KEY
  /\ (alerts (handleFileSelect file w) = alerts w
      \/ alerts (handleFileSelect file w) = importFailed :: alerts w).
Proof.
  assert (Hk : forall k, String.prefix TIMESHEET_PREFIX k = false ->
                 storage (handleFileSelect file w) !! k = storage w !! k).
  { intros k Hp. unfold handleFileSelect, importTry.
    destruct file as [c|]; [|reflexivity].
    destruct (readImport c) as [e|[m days]]; [reflexivity|].
    destruct m as [|t]; cbn [getLocalStorageKey throw ret storage]; [reflexivity|].
    apply lookup_insert_ne. intros E. subst k. rewrite prefix_append in Hp. discriminate. }
  split; [|split; [exact Hk|split; [apply Hk; reflexivity|]]].
  - unfold handleFileSelect, importTry. destruct file as [c|]; [|reflexivity].
    destruct (readImport c) as [e|[m days]]; [reflexivity|].
    destruct (getLocalStorageKey m); reflexivity.
  - unfold handleFileSelect, importTry. destruct file as [c|]; [|left; reflexivity].
    destruct (readImport c) as [e|[m days]]; [right; reflexivity|].
    destruct (getLocalStorageKey m); [right|left]; reflexivity.
Qed.

Lemma import_leaves_wage_witness :
  storage (handleFileSelect (host := Sample.host) (Some Cases.oneDay) Cases.busyWorld)
    !! WAGE_KEY
  = storage Cases.busyWorld !! WAGE_KEY.
Proof.
  pose proof (import_leaves_wage (host := Sample.host) (Some Cases.oneDay) Cases.busyWorld)
    as [_ [H _]].
  apply H. reflexivity.
Defined.

(** ** The date picker *)

Section PickerLemmas.

Lemma split_length (sep : ascii) (s : string) :
  List.length (split sep s) = S (occurrences sep s).
Proof.
  induction s as [|c s IH]; [reflexivity|]. cbn [split occurrences].
  destruct (Ascii.eqb c sep); cbn [List.length]; [rewrite IH; reflexivity|].
  destruct (split sep s) as [|p ps] eqn:Hs; [discriminate IH|].
  cbn [List.length] in *. lia.
Qed.

Lemma matchAt_two_dashes (s : string) :
  matchAt datePattern s = true -> (2 <= occurrences "-"%char s)%nat.
Proof.
  unfold datePattern. intros H.
  do 10 (destruct s as [|? s];
         [cbn [matchAt] in H; rewrite ?andb_false_r in H; discriminate H|]).
  cbn [matchAt] in H.
  repeat (apply andb_prop in H as [? H]).
  unfold dash in *. cbn [occurrences].
  repeat match goal with
         | E : Ascii.eqb ?c "-"%char = true |- _ => rewrite E; clear E
         end.
  lia.
Qed.

Lemma test_two_dashes (s : string) :
  test datePattern s = true -> (2 <= occurrences "-"%char s)%nat.
Proof.
  induction s as [|c s IH]; cbn [test].
  - rewrite orb_false_r. apply matchAt_two_dashes.
  - intros H. apply orb_prop in H as [H|H].
    + apply matchAt_two_dashes, H.
    + specialize (IH H). cbn [occurrences]. lia.
Qed.

End PickerLemmas.

(** X21.  Once the date pattern is found in the picked value, the value
    has at least two dashes, so splitting it at the dashes gives at
    least three parts: year, month and day are never [undefined], and
    the handler's test for that never decides anything. *)
Theorem picked_date_has_parts {numbers : NumberHost} (dateValue : string)
    (H : test datePattern dateValue = true) :
  (3 <= List.length (split "-"%char dateValue))%nat
  /\ exists year month day,
       dateParts dateValue !! 0%nat = Some year
       /\ dateParts dateValue !! 1%nat = Some month
       /\ dateParts dateValue !! 2%nat = Some day.
Proof.
  pose proof (test_two_dashes dateValue H) as Hd.
  pose proof (split_length "-"%char dateValue) as Hl.
  split; [lia|]. unfold dateParts.
  destruct (split "-"%char dateValue) as [|a [|b [|c l]]]; cbn [List.length] in Hl;
    try lia.
  eexists _, _, _. repeat split.
Qed.

Lemma picked_date_has_parts_witness :
  (3 <= List.length (split "-"%char "2024-06-05"))%nat.
Proof.
  apply (picked_date_has_parts (numbers := SampleNumbers.numbers) "2024-06-05").
  reflexivity.
Defined.

Section PickerResult.
Context {host : Host} {numbers : NumberHost}.

Lemma truncQc_of_Z (z : Z) : truncQc (of_Z z) = z.
Proof.
  unfold truncQc, of_Z, Q2Qc. cbn [this].
  rewrite Qred_identity by (cbn; apply Z.gcd_1_r).
  cbn. apply Z.quot_1_r.
Qed.

Lemma of_Z_add (a b : Z) : (of_Z a + of_Z b)%Qc = of_Z (a + b).
Proof.
  unfold of_Z, Qcplus. apply Q2Qc_eq_iff. cbn [this Q2Qc].
  rewrite !Qred_correct, inject_Z_plus. reflexivity.
Qed.

Lemma getMonday_shape (d : Date) :
  d = InvalidDate /\ getMonday d = InvalidDate
  \/ exists t m, d = TimeValue t /\ getMonday d = TimeValue m
                 /\ getDay m = 1 /\ localTime m = 0
                 /\ localDay m <= localDay t < localDay m + 7.
Proof.
  destruct d as [|t]; [left; split; reflexivity|]. right.
  assert (Hz : 0 <= 0 < msPerDay) by (unfold msPerDay; lia).
  exists t, (ofLocal (mondayOf (localDay t)) 0).
  split; [reflexivity|]. split; [apply getMonday_value|].
  unfold getDay. rewrite (localDay_ofLocal _ _ Hz), (localTime_ofLocal _ _ Hz).
  split; [apply mondayOf_weekday|]. split; [reflexivity|apply mondayOf_range].
Qed.

End PickerResult.




Section PickerSample.
#[local] Existing Instance Sample.host.
#[local] Existing Instance SampleNumbers.numbers.


End PickerSample.

(** * Dates within their range and across clock changes *)

Section ZonedLemmas.
Context {host : Host} {zone : Zoned.Zone}.

Lemma timeClip_in_range (t : Z) : Z.abs t <= maxTime -> Zoned.timeClip t = TimeValue t.
Proof. intros H. unfold Zoned.timeClip. apply Z.leb_le in H. rewrite H. reflexivity. Qed.

Lemma timeInDay_bound (l : Z) : 0 <= Zoned.timeInDay l < msPerDay.
Proof. unfold Zoned.timeInDay, msPerDay. apply Z.mod_pos_bound. lia. Qed.

Lemma day_of_midnight_plus (d ms : Z) :
  0 <= ms < msPerDay -> Zoned.day (d * msPerDay + ms) = d.
Proof.
  intros H. unfold Zoned.day, msPerDay in *.
  rewrite Z.add_comm, Z.div_add by lia. rewrite Z.div_small by lia. lia.
Qed.

Lemma timeInDay_of_midnight_plus (d ms : Z) :
  0 <= ms < msPerDay -> Zoned.timeInDay (d * msPerDay + ms) = ms.
Proof.
  intros H. unfold Zoned.timeInDay, msPerDay in *.
  rewrite Z.add_comm, Z.mod_add by lia. apply Z.mod_small. lia.
Qed.

Lemma day_of_midnight (d : Z) : Zoned.day (d * msPerDay) = d.
Proof. unfold Zoned.day, msPerDay. apply Z.div_mul. lia. Qed.

Lemma timeInDay_of_midnight (d : Z) : Zoned.timeInDay (d * msPerDay) = 0.
Proof. unfold Zoned.timeInDay, msPerDay. apply Z.mod_mul. lia. Qed.

Lemma setDate_to_day (t k : Z) :
  Zoned.setDate t (Zoned.getDate t + k)
  = Zoned.timeClip
      (Zoned.utc ((Zoned.day (Zoned.localTime t) + k) * msPerDay
                  + Zoned.timeInDay (Zoned.localTime t))).
Proof. unfold Zoned.setDate, Zoned.getDate. do 3 f_equal. lia. Qed.

Lemma getMonday_setDate (t : Z) :
  Zoned.setDate t
    (Zoned.getDate t - Zoned.getDay t + (if Zoned.getDay t =? 0 then -6 else 1))
  = Zoned.timeClip
      (Zoned.utc (mondayOf (Zoned.day (Zoned.localTime t)) * msPerDay
                  + Zoned.timeInDay (Zoned.localTime t))).
Proof.
  unfold Zoned.setDate, Zoned.getDate, Zoned.getDay, mondayOf. do 3 f_equal. lia.
Qed.

Lemma getMonday_of (t : Z) :
  Zoned.weekStartExists t ->
  Zoned.getMonday (TimeValue t)
  = TimeValue (Zoned.utc (mondayOf (Zoned.day (Zoned.localTime t)) * msPerDay)).
Proof.
  intros [H1 [H2 [H3 H4]]]. unfold Zoned.getMonday.
  rewrite getMonday_setDate, (timeClip_in_range _ H3).
  unfold Zoned.setMidnight. unfold Zoned.regularAt in H1. rewrite H1.
  rewrite day_of_midnight_plus by apply timeInDay_bound.
  apply timeClip_in_range, H4.
Qed.

Lemma weekStartExists_monday (t : Z) :
  Zoned.weekStartExists t ->
  Zoned.weekStartExists (Zoned.utc (mondayOf (Zoned.day (Zoned.localTime t)) * msPerDay)).
Proof.
  intros [H1 [H2 [H3 H4]]]. unfold Zoned.weekStartExists.
  unfold Zoned.regularAt in H2. rewrite H2.
  rewrite day_of_midnight, timeInDay_of_midnight.
  rewrite (mondayOf_fixed (mondayOf _)) by apply mondayOf_weekday.
  rewrite !Z.add_0_r. unfold Zoned.regularAt. repeat split; assumption.
Qed.

End ZonedLemmas.

Section FixedZone.
Context {host : Host}.

Lemma fixed_regularAt (offset l : Z) :
  Zoned.regularAt (zone := Zoned.fixedZone offset) l.
Proof. unfold Zoned.regularAt, Zoned.localTime, Zoned.utc. cbn. lia. Qed.

(** With the clocks of the host never changing and the Monday within
    the range of dates, the Monday is the one the operations with a
    constant offset give. *)
Lemma getMonday_fixedZone (t : Z) :
  Zoned.weekStartExists (zone := Zoned.fixedZone tzOffset) t ->
  Zoned.getMonday (zone := Zoned.fixedZone tzOffset) (TimeValue t)
  = getMonday (TimeValue t).
Proof.
  intros H. rewrite (getMonday_of t H), getMonday_value.
  unfold Zoned.utc, Zoned.localTime, Zoned.day, ofLocal, localDay. cbn. f_equal. lia.
Qed.

End FixedZone.


Section ZonedSamples.
#[local] Existing Instance Sample.host.



End ZonedSamples.

(** X2.  When the week of a date has a start, the seven days that a new
    week is built from are that Monday's local midnight and the
    midnights after it: as long as local midnight of day [i] is a time
    the clocks show and lies within the range of dates, day [i] is [i]
    local days after the Monday at local midnight, its weekday is Monday
    for 0 up to Sunday for 6, and its own Monday is the Monday the week
    started from. *)
Theorem week_days_from_monday {host : Host} {zone : Zoned.Zone} (t i : Z)
    (H : Zoned.weekStartExists t) (Hi : 0 <= i < 7)
    (Hr : Zoned.regularAt ((mondayOf (Zoned.day (Zoned.localTime t)) + i) * msPerDay))
    (Hb : Z.abs (Zoned.utc ((mondayOf (Zoned.day (Zoned.localTime t)) + i) * msPerDay))
          <= maxTime) :
  exists m ti,
    Zoned.getMonday (TimeValue t) = TimeValue m
    /\ Zoned.dayOfWeekFrom (Zoned.getMonday (TimeValue t)) i = TimeValue ti
    /\ Zoned.day (Zoned.localTime ti) = Zoned.day (Zoned.localTime m) + i
    /\ Zoned.timeInDay (Zoned.localTime ti) = 0
    /\ Zoned.getDay ti = (1 + i) mod 7
    /\ Zoned.getMonday (TimeValue ti) = TimeValue m.
Proof.
  pose proof (getMonday_of t H) as Hg.
  destruct H as [H1 [H2 [H3 H4]]].
  set (M := mondayOf (Zoned.day (Zoned.localTime t))) in *.
  assert (HM : (M + 4) mod 7 = 1) by apply mondayOf_weekday.
  unfold Zoned.regularAt in H2, Hr.
  exists (Zoned.utc (M * msPerDay)), (Zoned.utc ((M + i) * msPerDay)).
  split; [exact Hg|]. rewrite Hg. cbn [Zoned.dayOfWeekFrom].
  rewrite setDate_to_day, H2, day_of_midnight, timeInDay_of_midnight, Z.add_0_r.
  split; [apply timeClip_in_range, Hb|].
  unfold Zoned.getDay. rewrite Hr, ?H2, ?day_of_midnight, ?timeInDay_of_midnight.
  split; [reflexivity|]. split; [reflexivity|]. split.
  - Z.div_mod_to_equations. lia.
  - assert (Hw : Zoned.weekStartExists (Zoned.utc ((M + i) * msPerDay))).
    { unfold Zoned.weekStartExists. rewrite Hr, day_of_midnight, timeInDay_of_midnight.
      rewrite (mondayOf_same_week M i HM Hi), Z.add_0_r.
      unfold Zoned.regularAt. repeat split; assumption. }
    rewrite (getMonday_of _ Hw), Hr, day_of_midnight.
    rewrite (mondayOf_same_week M i HM Hi). reflexivity.
Qed.

Section ZonedWeek.
#[local] Existing Instance Sample.host.
#[local] Existing Instance Zoned.europe.

Lemma week_days_from_monday_witness :
  exists m ti,
    Zoned.getMonday (TimeValue Zoned.changeSunday) = TimeValue m
    /\ Zoned.dayOfWeekFrom (Zoned.getMonday (TimeValue Zoned.changeSunday)) 6 = TimeValue ti
    /\ Zoned.day (Zoned.localTime ti) = Zoned.day (Zoned.localTime m) + 6
    /\ Zoned.timeInDay (Zoned.localTime ti) = 0
    /\ Zoned.getDay ti = (1 + 6) mod 7
    /\ Zoned.getMonday (TimeValue ti) = TimeValue m.
Proof.
  apply (week_days_from_monday Zoned.changeSunday 6).
  - repeat split; vm_compute; discriminate.
  - lia.
  - vm_compute. reflexivity.
  - vm_compute. discriminate.
Defined.

End ZonedWeek.

(** * Hour totals in the arithmetic with infinities *)

Section WideArithmetic.
Import Wide.

Lemma below_zero : (of_Z (- overflowAt) < 0)%Qc.
Proof. vm_compute. reflexivity. Qed.

Lemma clip_nonneg (q : Qc) : (0 <= q)%Qc -> nonneg (clip q).
Proof.
  intros Hq. unfold clip.
  destruct (decide (of_Z overflowAt <= q)%Qc); [reflexivity|].
  destruct (decide (q <= of_Z (- overflowAt))%Qc) as [Hn|_]; [|exact Hq].
  exfalso. apply (Qclt_not_le _ _ below_zero).
  apply (Qcle_trans _ q); assumption.
Qed.

Lemma add_nonneg (a b : xnum) : nonneg a -> nonneg b -> nonneg (add a b).
Proof.
  destruct a as [|sa|x], b as [|sb|y]; cbn; try tauto.
  - intros -> ->. reflexivity.
  - intros Hx Hy. apply clip_nonneg.
    replace 0%Qc with (0 + 0)%Qc by ring. apply Qcplus_le_compat; assumption.
Qed.

Lemma over60_nonneg (a : xnum) : nonneg a -> nonneg (over60 a).
Proof.
  destruct a as [|s|x]; cbn; try tauto.
  intros Hx. unfold Qcdiv. replace 0%Qc with (0 * / of_Z 60)%Qc by ring.
  apply Qcmult_le_compat_r; [exact Hx|].
  apply Qclt_le_weak, Qcinv_pos. reflexivity.
Qed.

Lemma add_fine (a b : xnum) : fine a -> fine b -> fine (add a b).
Proof.
  intros [Ha| ->] [Hb| ->].
  - left. apply add_nonneg; assumption.
  - right. destruct a; reflexivity.
  - right. reflexivity.
  - right. reflexivity.
Qed.

Lemma difference_fine (e s : xnum) : lt e s = false -> fine (over60 (sub e s)).
Proof.
  destruct e as [|se|x], s as [|ss|y]; cbn; try (intros _; right; reflexivity).
  - destruct se, ss; cbn; intros H; try discriminate H;
      first [right; reflexivity | left; reflexivity].
  - intros ->. left. reflexivity.
  - destruct ss; cbn; intros H; [left; reflexivity|discriminate H].
  - intros H. apply bool_decide_eq_false in H. apply Qcnot_lt_le in H.
    left. apply over60_nonneg, clip_nonneg.
    apply Qcle_minus_iff in H. exact H.
Qed.

Lemma difference_nonneg (x y : Qc) :
  lt (XNum x) (XNum y) = false -> nonneg (over60 (sub (XNum x) (XNum y))).
Proof.
  intros H. destruct (difference_fine (XNum x) (XNum y) H) as [Hn|Hn]; [exact Hn|].
  cbn in Hn. unfold clip in Hn.
  destruct (decide _); [discriminate Hn|]. destruct (decide _); discriminate Hn.
Qed.

Lemma rangeStep_minutes (total : xnum) (e : Entry) :
  rangeStep total e
  = match minutes (startTime e), minutes (endTime e) with
    | Some a, Some b => if lt b a then total else add total (over60 (sub b a))
    | _, _ => total
    end.
Proof.
  unfold rangeStep, minutes.
  destruct (falsy_str (startTime e)); cbn [orb]; [reflexivity|].
  destruct (falsy_str (endTime e)); cbn [orb].
  { destruct (split colon (default ""%string (startTime e))) as [|a [|b [|c l]]];
      try reflexivity.
    destruct (isNaN (parseInt a) || isNaN (parseInt b))%bool; reflexivity. }
  destruct (split colon (default ""%string (startTime e))) as [|a [|b [|c l]]];
    cbn [List.length Nat.eqb andb negb]; try reflexivity;
  destruct (split colon (default ""%string (endTime e))) as [|a' [|b' [|c' l']]];
    cbn [List.length Nat.eqb andb negb List.nth]; try reflexivity;
  try (destruct (isNaN (parseInt a) || isNaN (parseInt b))%bool; reflexivity).
  destruct (isNaN (parseInt a)), (isNaN (parseInt b)),
           (isNaN (parseInt a')), (isNaN (parseInt b')); reflexivity.
Qed.

Lemma rangeStep_fine (total : xnum) (e : Entry) : fine total -> fine (rangeStep total e).
Proof.
  intros Ht. rewrite rangeStep_minutes.
  destruct (minutes (startTime e)) as [a|]; [|exact Ht].
  destruct (minutes (endTime e)) as [b|]; [|exact Ht].
  destruct (lt b a) eqn:Hlt; [exact Ht|].
  apply add_fine; [exact Ht|apply difference_fine, Hlt].
Qed.

Lemma rangeStep_nonneg (total : xnum) (e : Entry) :
  timesFinite e -> nonneg total -> nonneg (rangeStep total e).
Proof.
  intros He Ht. rewrite rangeStep_minutes. unfold timesFinite in He.
  destruct (minutes (startTime e)) as [a|]; [|exact Ht].
  destruct (minutes (endTime e)) as [b|]; [|exact Ht].
  destruct He as [Ha Hb]. destruct a as [| |x]; try discriminate Ha.
  destruct b as [| |y]; try discriminate Hb.
  destruct (lt (XNum y) (XNum x)) eqn:Hlt; [exact Ht|].
  apply add_nonneg; [exact Ht|apply difference_nonneg, Hlt].
Qed.

Lemma directStep_nonneg (total : xnum) (e : Entry) :
  hoursNonneg e -> nonneg total -> nonneg (directStep total e).
Proof.
  unfold hoursNonneg, directStep. intros He Ht.
  destruct (hours e) as [h|]; cbn [default from_option id].
  - destruct He as [Hn|Hn].
    + rewrite Hn. apply add_nonneg; [exact Ht|apply Qcle_refl].
    + destruct (isNaN h); apply add_nonneg; try exact Ht; [apply Qcle_refl|exact Hn].
  - apply add_nonneg; [exact Ht|apply Qcle_refl].
Qed.

Lemma fold_nonneg (step : xnum -> Entry -> xnum) (P : Entry -> Prop) (es : list Entry) :
  (forall total e, P e -> nonneg total -> nonneg (step total e)) ->
  Forall P es -> forall total, nonneg total -> nonneg (fold_left step es total).
Proof.
  intros Hstep. induction 1 as [|e es He _ IH]; intros total Ht; cbn [fold_left];
    [exact Ht|].
  apply IH, Hstep; assumption.
Qed.

Lemma fold_rangeStep_fine (es : list Entry) (total : xnum) :
  fine total -> fine (fold_left rangeStep es total).
Proof.
  revert total; induction es as [|e es IH]; intros total Ht; cbn [fold_left];
    [exact Ht|].
  apply IH, rangeStep_fine, Ht.
Qed.

End WideArithmetic.

Section ShortTimes.
Import Wide.

Lemma digit_val_range (c : ascii) (d : Z) : digit_val c = Some d -> 0 <= d <= 9.
Proof.
  unfold digit_val. destruct (Nat.leb 48 (nat_of_ascii c) && Nat.leb (nat_of_ascii c) 57)%bool eqn:E;
    [|discriminate].
  apply andb_prop in E as [E1 E2]. apply Nat.leb_le in E1, E2.
  intros H. injection H as <-. lia.
Qed.

Lemma digits_bound (s : string) (acc : Z) (seen : bool) (z : Z) :
  0 <= acc -> digits s acc seen = Some z ->
  0 <= z < (acc + 1) * 10 ^ Z.of_nat (String.length s).
Proof.
  revert acc seen; induction s as [|c r IH]; intros acc seen Hacc; cbn [digits String.length].
  - destruct seen; [|discriminate]. intros H. injection H as <-.
    change (10 ^ Z.of_nat 0) with 1. lia.
  - rewrite Nat2Z.inj_succ, Z.pow_succ_r by lia.
    assert (Hp : 0 < 10 ^ Z.of_nat (String.length r)) by (apply Z.pow_pos_nonneg; lia).
    destruct (digit_val c) as [d|] eqn:Hd.
    + apply digit_val_range in Hd. intros H.
      apply IH in H; [|lia]. nia.
    + destruct seen; [|discriminate]. intros H. injection H as <-. nia.
Qed.

Lemma skip_space_length (s : string) :
  (String.length (skip_space s) <= String.length s)%nat.
Proof.
  induction s as [|c r IH]; cbn [skip_space]; [lia|].
  destruct (is_space c); cbn [String.length]; lia.
Qed.

Lemma parseInt_bound (s : string) (z : Z) :
  Str.parseInt s = Some z -> Z.abs z < 10 ^ Z.of_nat (String.length s).
Proof.
  unfold Str.parseInt. pose proof (skip_space_length s) as Hl.
  assert (Hmono : forall n, (n <= String.length s)%nat ->
                    10 ^ Z.of_nat n <= 10 ^ Z.of_nat (String.length s)).
  { intros n Hn. apply Z.pow_le_mono_r; lia. }
  assert (Hgen : forall r, (String.length r <= String.length s)%nat ->
                   digits r 0 false = Some z ->
                   Z.abs z < 10 ^ Z.of_nat (String.length s)).
  { intros r Hr H. apply digits_bound in H; [|lia]. specialize (Hmono _ Hr). lia. }
  destruct (skip_space s) as [|c r] eqn:Hs; [discriminate|].
  cbn [String.length] in Hl.
  assert (Hr : (String.length r <= String.length s)%nat) by lia.
  assert (Hcr : (String.length (String c r) <= String.length s)%nat) by (cbn; lia).
  destruct c as [[] [] [] [] [] [] [] []]; try (apply (Hgen _ Hcr)); try (apply (Hgen _ Hr)).
  destruct (digits r 0 false) as [z'|] eqn:Hd; [|discriminate].
  cbn. intros H. injection H as <-.
  apply digits_bound in Hd; [|lia]. specialize (Hmono _ Hr). lia.
Qed.

Lemma split_part_length (sep : ascii) (s p : string) :
  In p (split sep s) -> (String.length p <= String.length s)%nat.
Proof.
  revert p; induction s as [|c r IH]; intros p; cbn [split].
  - intros [<-|[]]. lia.
  - destruct (Ascii.eqb c sep).
    + intros [<-|H]; cbn [String.length]; [lia|]. specialize (IH p H). lia.
    + destruct (split sep r) as [|q qs] eqn:Hq.
      * intros [<-|[]]. cbn [String.length]. lia.
      * intros [<-|H]; cbn [String.length].
        -- specialize (IH q (or_introl eq_refl)). lia.
        -- specialize (IH p (or_intror H)). lia.
Qed.

Lemma of_Z_le (a b : Z) : (of_Z a <= of_Z b)%Qc <-> a <= b.
Proof.
  unfold Qcle, of_Z, Q2Qc. cbn [this]. rewrite !Qred_correct, <- Zle_Qle. reflexivity.
Qed.

Lemma of_Z_mul (a b : Z) : (of_Z a * of_Z b)%Qc = of_Z (a * b).
Proof.
  unfold of_Z, Qcmult. apply Q2Qc_eq_iff. cbn [this Q2Qc].
  rewrite !Qred_correct, inject_Z_mult. reflexivity.
Qed.

Lemma clip_of_Z (z : Z) : Z.abs z < overflowAt -> clip (of_Z z) = XNum (of_Z z).
Proof.
  intros Hz. unfold clip. generalize dependent overflowAt. intros T Hz.
  destruct (decide (of_Z T <= of_Z z)%Qc) as [H|_];
    [apply (proj1 (of_Z_le T z)) in H; lia|].
  destruct (decide (of_Z z <= of_Z (- T))%Qc) as [H|_];
    [apply (proj1 (of_Z_le z (- T))) in H; lia|].
  reflexivity.
Qed.

Lemma room : 61 * 10 ^ 300 < overflowAt.
Proof. vm_compute. reflexivity. Qed.

Lemma minutes_of_bounded (h m : Z) :
  Z.abs h < 10 ^ 300 -> Z.abs m < 10 ^ 300 ->
  add (times60 (clip (of_Z h))) (clip (of_Z m)) = XNum (of_Z (h * 60 + m)).
Proof.
  intros Hh Hm. pose proof room as Hroom.
  rewrite (clip_of_Z h), (clip_of_Z m) by lia.
  cbn [times60]. rewrite of_Z_mul, (clip_of_Z (h * 60)) by lia.
  cbn [add]. rewrite of_Z_add. apply clip_of_Z. lia.
Qed.

Lemma minutes_finite (s : option string) (a : xnum) :
  (String.length (default ""%string s) <= 300)%nat ->
  minutes s = Some a -> isFinite a = true.
Proof.
  intros Hlen. unfold minutes. destruct (falsy_str s); [discriminate|].
  destruct (split colon (default ""%string s)) as [|h [|m [|x l]]] eqn:Hs;
    try discriminate.
  assert (Hb : forall p, In p [h; m] -> (String.length p <= 300)%nat).
  { intros p Hp. rewrite <- Hs in Hp. apply split_part_length in Hp. lia. }
  assert (Hpow : forall p, In p [h; m] -> 10 ^ Z.of_nat (String.length p) <= 10 ^ 300).
  { intros p Hp. apply Z.pow_le_mono_r; [lia|]. specialize (Hb p Hp). lia. }
  unfold parseInt.
  destruct (Str.parseInt h) as [zh|] eqn:Hh; [|cbn; discriminate].
  destruct (Str.parseInt m) as [zm|] eqn:Hm;
    [|cbn [isNaN]; rewrite orb_true_r; discriminate].
  apply parseInt_bound in Hh, Hm.
  pose proof (Hpow h (or_introl eq_refl)). pose proof (Hpow m (or_intror (or_introl eq_refl))).
  rewrite minutes_of_bounded by lia.
  destruct (isNaN (clip (of_Z zh)) || isNaN (clip (of_Z zm)))%bool; [discriminate|].
  intros E. injection E as <-. reflexivity.
Qed.

Lemma timesShort_timesFinite (e : Entry) : timesShort e -> timesFinite e.
Proof.
  intros [Hs He]. unfold timesFinite.
  destruct (minutes (startTime e)) as [a|] eqn:Ha; [|exact I].
  destruct (minutes (endTime e)) as [b|] eqn:Hb; [|exact I].
  split; [apply (minutes_finite _ _ Hs Ha)|apply (minutes_finite _ _ He Hb)].
Qed.

End ShortTimes.




(** On a day of ordinary times the total in the wider arithmetic is the
    exact total. *)
Example wide_total_of_work_day :
  Wide.calculateDayHours (map widen (entries Cases.workDay)) false
  = Wide.widenNum (calculateDayHours (entries Cases.workDay) false)
  /\ Wide.calculateDayHours (map widen (entries Cases.workDay)) false
     = Wide.XNum (of_Z 8).
Proof. split; vm_compute; reflexivity. Qed.
